(** * Medical appointment scheduling backend: a shallow embedding of [app.py]

    The Flask handlers of [src/app.py] are embedded as pure functions from a
    request and a store to a response and a store.

    Modelling conventions.
    - The SQLAlchemy database is a record of tables; a table is the list of
      its rows in insertion order.  [Model.query.get], [filter_by], [first]
      and [all] are list queries; [db.session.add] followed by
      [db.session.commit] is [add_commit], which enforces the primary key and
      the columns declared [unique=True] and otherwise appends the row.
    - The database is the SQLite file of [app.config].  Its [Date] and [Time]
      columns accept only Python [date] and [time] objects at a commit
      ([bind_date], [bind_time]); a request body is JSON and carries strings,
      so a commit that binds a string of the body to such a column raises.  A
      stored date or time is represented by its ISO text, which is what
      SQLite keeps and what a query string is compared with.
    - An exception that escapes a handler (a [KeyError] on [data[...]], an
      error raised by the commit) reaches Flask, which answers 500 through
      [internal_error] after a rollback: the store is unchanged.
    - [uuid.uuid4()] and the salt drawn by [generate_password_hash] are read
      from an environment [Env] passed to each handler.
    - Password hashing and JWT handling are external libraries: they are the
      fields of the class [External], about which nothing is assumed.  The
      answer of [@jwt_required()] to a missing or invalid token is the
      library's, [jwt_error].  A token is represented by the identity it was
      issued for; its issue time and expiry are not represented, so nothing
      here speaks of two tokens being the same string.
    - JSON request bodies are typed records whose keys carry strings (and
      numbers where the column is numeric); an absent key is [None].
    - A [Float] column holds a binary double, represented by its exact
      rational value; [to_double] is the nearest double of a rational.
    - The timestamp columns ([registration_date], [created_at], and
      [updated_at], which [cancel_appointment] assigns and an update
      refreshes) are not represented: no handler reads them and no response
      contains them.  Statements about rows speak of the other columns. *)

From Stdlib Require Import String List ZArith QArith Qround Qabs Bool Lia Lqa.
Import ListNotations.
Open Scope Z_scope.
Open Scope string_scope.

(** ** JSON values and responses *)

#[local] Unset Elimination Schemes.

Inductive Json : Type :=
| JNull
| JBool (b : bool)
| JInt (n : Z)
| JFloat (q : Q)
| JStr (s : string)
| JList (l : list Json)
| JDict (d : list (string * Json)).

#[local] Set Elimination Schemes.

(** A view returns [jsonify(body), status]. *)
Definition Response : Type := Json * Z.

Definition ident := string.

(** A [datetime.date] and a [datetime.time], by their ISO text. *)
Definition date := string.
Definition time := string.

Definition isoformat (d : string) : string := d.

(** The Python objects that reach a [Date] or [Time] column: a string taken
    from a JSON body, or a date or time object. *)
Inductive pyobj : Type :=
| PyStr (s : string)
| PyDate (d : date)
| PyTime (t : time).

(** The bind processors of SQLite's [Date] and [Time] types: "SQLite Date
    type only accepts Python date objects as input", and likewise for
    [Time]; [None] is the [TypeError] they raise. *)
Definition bind_date (v : pyobj) : option date :=
  match v with
  | PyDate d => Some d
  | _ => None
  end.

Definition bind_time (v : pyobj) : option time :=
  match v with
  | PyTime t => Some t
  | _ => None
  end.

Definition opt_json {A : Type} (f : A -> Json) (o : option A) : Json :=
  match o with
  | Some x => f x
  | None => JNull
  end.

(** [d.get(key, default)] on an optional key. *)
Definition get_default {A : Type} (o : option A) (default : A) : A :=
  match o with
  | Some x => x
  | None => default
  end.

(** Python's truth test on an optional query-string argument: an absent
    argument and the empty string are both false. *)
Definition truthy (o : option string) : option string :=
  match o with
  | Some v => if v =? "" then None else Some v
  | None => None
  end.

(** The nearest integer, ties to the even neighbour. *)
Definition round_half_even (q : Q) : Z :=
  let f := Qfloor q in
  let r := (q - inject_Z f)%Q in
  match (r ?= 1 # 2)%Q with
  | Lt => f
  | Gt => f + 1
  | Eq => if Z.even f then f else f + 1
  end.

(** [2 ^ e], for an exponent of either sign. *)
Definition pow2 (e : Z) : Q :=
  if (0 <=? e)%Z then inject_Z (2 ^ e) else 1 # Z.to_pos (2 ^ (- e)).

(** The integer part of the binary logarithm of a positive rational. *)
Definition ilog2 (q : Q) : Z :=
  let e0 := Z.log2 (Qnum q) - Z.log2 (Zpos (Qden q)) in
  if Qle_bool (pow2 e0) q then e0 else e0 - 1.

(** The binary double (IEEE 754 binary64) nearest to a rational, ties to
    even, as its exact value: a 53-bit significand, subnormals below
    [2 ^ -1022]; the values a [Float] column can hold are its fixed points.
    Overflow is not represented. *)
Definition to_double (q : Q) : Q :=
  if (Qnum q =? 0)%Z then 0%Q
  else
    let a := Qabs q in
    let e := Z.max (ilog2 a - 52) (-1074) in
    let m := round_half_even (a / pow2 e) in
    let r := Qred (inject_Z m * pow2 e) in
    if (Qnum q <? 0)%Z then (- r)%Q else r.

(** Python's [round(x, 2)] of a float: the exact value of the double,
    rounded to the nearest hundredth, ties to even.  (The float it returns
    is the double nearest to that decimal, which prints as the decimal.) *)
Definition round2 (x : Q) : Q :=
  Qred (round_half_even (to_double x * 100) # 100).

Arguments to_double : simpl never.
Arguments round2 : simpl never.

(** ** External capabilities *)

Class External : Type := {
  (** werkzeug: [generate_password_hash], with the salt it draws made explicit *)
  generate_password_hash : string -> string -> string;
  (** werkzeug: [check_password_hash(pwhash, password)] *)
  check_password_hash : string -> string -> bool;
  (** flask_jwt_extended: [create_access_token(identity=...)] *)
  create_access_token : ident -> string;
  (** flask_jwt_extended: the identity of a token that verifies *)
  decode_token : string -> option ident;
  (** flask_jwt_extended: the answer to a request whose Authorization header
      is missing ([None]) or carries a token that does not verify *)
  jwt_error : option string -> Response
}.

(** The environment of one request. *)
Record Env : Type := {
  uuid4 : ident;
  salt : string
}.

(** ** Enums *)

Inductive AppointmentStatus : Type :=
| PENDING
| CONFIRMED
| COMPLETED
| CANCELLED
| REJECTED.

Definition value (st : AppointmentStatus) : string :=
  match st with
  | PENDING => "PENDING"
  | CONFIRMED => "CONFIRMED"
  | COMPLETED => "COMPLETED"
  | CANCELLED => "CANCELLED"
  | REJECTED => "REJECTED"
  end.

(** ** Database models *)

Module Patient.
Record t : Type := mk {
  id : ident;
  first_name : string;
  last_name : string;
  email : string;
  phone : string;
  password_hash : string;
  date_of_birth : option date;
  address : option string;
  blood_group : option string;
  medical_history : option string
}.

(** [Patient(first_name=..., last_name=..., email=..., phone=...)]; the
    primary key is the [uuid4] default. *)
Definition new (i : ident) (fn ln em ph : string) : t :=
  mk i fn ln em ph "" None None None None.

Section Methods.
Context {E : External}.

Definition set_password (self : t) (salt password : string) : t :=
  mk (id self) (first_name self) (last_name self) (email self) (phone self)
     (generate_password_hash salt password)
     (date_of_birth self) (address self) (blood_group self)
     (medical_history self).

Definition check_password (self : t) (password : string) : bool :=
  check_password_hash (password_hash self) password.
End Methods.

Definition to_dict (self : t) : Json :=
  JDict [("id", JStr (id self));
         ("first_name", JStr (first_name self));
         ("last_name", JStr (last_name self));
         ("email", JStr (email self));
         ("phone", JStr (phone self))].
End Patient.

Module Doctor.
Record t : Type := mk {
  id : ident;
  first_name : string;
  last_name : string;
  email : string;
  phone : string;
  password_hash : string;
  specialization : string;
  license_number : string;
  consultation_fee : Q;
  experience_years : Z;
  bio : option string;
  rating_average : Q;
  is_available : bool
}.

(** The constructor call of [doctor_register]; the columns it does not
    pass take their defaults. *)
Definition new (i : ident) (fn ln em ph spec lic : string) (fee : Q) : t :=
  mk i fn ln em ph "" spec lic fee 0 None 0%Q true.

Section Methods.
Context {E : External}.

Definition set_password (self : t) (salt password : string) : t :=
  mk (id self) (first_name self) (last_name self) (email self) (phone self)
     (generate_password_hash salt password)
     (specialization self) (license_number self) (consultation_fee self)
     (experience_years self) (bio self) (rating_average self)
     (is_available self).

Definition check_password (self : t) (password : string) : bool :=
  check_password_hash (password_hash self) password.
End Methods.

Definition set_rating_average (self : t) (r : Q) : t :=
  mk (id self) (first_name self) (last_name self) (email self) (phone self)
     (password_hash self) (specialization self) (license_number self)
     (consultation_fee self) (experience_years self) (bio self) r
     (is_available self).

Definition to_dict (self : t) : Json :=
  JDict [("id", JStr (id self));
         ("first_name", JStr (first_name self));
         ("last_name", JStr (last_name self));
         ("email", JStr (email self));
         ("specialization", JStr (specialization self));
         ("consultation_fee", JFloat (consultation_fee self));
         ("experience_years", JInt (experience_years self));
         ("rating_average", JFloat (round2 (rating_average self)));
         ("is_available", JBool (is_available self));
         ("bio", opt_json JStr (bio self))].
End Doctor.

Module TimeSlot.
Record t : Type := mk {
  id : ident;
  doctor_id : ident;
  date : date;
  start_time : time;
  end_time : time;
  is_available : bool;
  capacity : Z;
  booked_count : Z
}.

(** [TimeSlot(doctor_id=..., date=..., start_time=..., end_time=...,
    capacity=...)]: [is_available] defaults to [True] and [booked_count]
    to [0]. *)
Definition new (i did : ident) (d : string) (st et : string) (cap : Z) : t :=
  mk i did d st et true cap 0.

Definition set_booked_count (self : t) (n : Z) : t :=
  mk (id self) (doctor_id self) (date self) (start_time self) (end_time self)
     (is_available self) (capacity self) n.

Definition to_dict (self : t) : Json :=
  JDict [("id", JStr (id self));
         ("doctor_id", JStr (doctor_id self));
         ("date", JStr (isoformat (date self)));
         ("start_time", JStr (isoformat (start_time self)));
         ("end_time", JStr (isoformat (end_time self)));
         ("is_available", JBool (is_available self))].
End TimeSlot.

Module Appointment.
Record t : Type := mk {
  id : ident;
  patient_id : ident;
  doctor_id : ident;
  appointment_date : date;
  appointment_time : time;
  status : string;
  consultation_notes : option string;
  ai_recommendation : option string
}.

(** [Appointment(patient_id=..., doctor_id=..., appointment_date=...,
    appointment_time=..., consultation_notes=...)]: [status] defaults to
    [AppointmentStatus.PENDING.value]. *)
Definition new (i pid did : ident) (d : string) (tm : string)
    (notes : option string) : t :=
  mk i pid did d tm (value PENDING) notes None.

Definition set_status (self : t) (st : string) : t :=
  mk (id self) (patient_id self) (doctor_id self) (appointment_date self)
     (appointment_time self) st (consultation_notes self)
     (ai_recommendation self).

Definition to_dict (self : t) : Json :=
  JDict [("id", JStr (id self));
         ("patient_id", JStr (patient_id self));
         ("doctor_id", JStr (doctor_id self));
         ("appointment_date", JStr (isoformat (appointment_date self)));
         ("appointment_time", JStr (isoformat (appointment_time self)));
         ("status", JStr (status self));
         ("consultation_notes", opt_json JStr (consultation_notes self));
         ("ai_recommendation", opt_json JStr (ai_recommendation self))].
End Appointment.

Module Review.
Record t : Type := mk {
  id : ident;
  patient_id : ident;
  doctor_id : ident;
  appointment_id : option ident;
  rating : Z;
  comment : option string
}.
End Review.

(** ** The store *)

Record Store : Type := mkStore {
  patients : list Patient.t;
  doctors : list Doctor.t;
  time_slots : list TimeSlot.t;
  appointments : list Appointment.t;
  reviews : list Review.t
}.

(** [db.create_all()] on a new database. *)
Definition empty_store : Store := mkStore [] [] [] [] [].

Definition set_patients (s : Store) (tbl : list Patient.t) : Store :=
  mkStore tbl (doctors s) (time_slots s) (appointments s) (reviews s).

Definition set_doctors (s : Store) (tbl : list Doctor.t) : Store :=
  mkStore (patients s) tbl (time_slots s) (appointments s) (reviews s).

Definition set_time_slots (s : Store) (tbl : list TimeSlot.t) : Store :=
  mkStore (patients s) (doctors s) tbl (appointments s) (reviews s).

Definition set_appointments (s : Store) (tbl : list Appointment.t) : Store :=
  mkStore (patients s) (doctors s) (time_slots s) tbl (reviews s).

Definition set_reviews (s : Store) (tbl : list Review.t) : Store :=
  mkStore (patients s) (doctors s) (time_slots s) (appointments s) tbl.

(** ** Queries and commits *)

Section Query.
Context {A : Type}.

(** [Model.query.get(i)]: the row whose primary key is [i]. *)
Definition query_get (pk : A -> ident) (tbl : list A) (i : ident) : option A :=
  find (fun r => pk r =? i) tbl.

(** [query.filter_by(...)]; [query.all()] is the list itself. *)
Definition filter_by (p : A -> bool) (tbl : list A) : list A :=
  filter p tbl.

(** [query.first()] *)
Definition first (rows : list A) : option A :=
  match rows with
  | [] => None
  | r :: _ => Some r
  end.

(** Does [r] repeat, in one of the columns [uniques], a value the table
    already holds? *)
Definition violates (uniques : list (A -> string)) (r : A) (tbl : list A) : bool :=
  existsb (fun col => existsb (fun r' => col r' =? col r) tbl) uniques.

(** [db.session.add(r); db.session.commit()]: [None] is the
    [IntegrityError] of a primary-key or unique constraint. *)
Definition add_commit (uniques : list (A -> string)) (r : A) (tbl : list A)
    : option (list A) :=
  if violates uniques r tbl then None else Some (tbl ++ [r])%list.

(** The [UPDATE ... WHERE id = i] a commit emits for a modified row. *)
Definition update_where (pk : A -> ident) (i : ident) (f : A -> A)
    (tbl : list A) : list A :=
  map (fun r => if pk r =? i then f r else r) tbl.
End Query.

Definition len {A : Type} (l : list A) : Json := JInt (Z.of_nat (length l)).

Definition error (msg : string) (code : Z) : Response :=
  (JDict [("error", JStr msg)], code).

(** [@app.errorhandler(500)] *)
Definition internal_error : Response := error "Internal server error" 500.

(** ** Request bodies *)

Record PatientRegisterData : Type := {
  pr_first_name : option string;
  pr_last_name : option string;
  pr_email : option string;
  pr_phone : option string;
  pr_password : option string
}.

Record DoctorRegisterData : Type := {
  dr_first_name : option string;
  dr_last_name : option string;
  dr_email : option string;
  dr_phone : option string;
  dr_password : option string;
  dr_specialization : option string;
  dr_license_number : option string;
  dr_consultation_fee : option Q
}.

Record LoginData : Type := {
  lg_email : option string;
  lg_password : option string
}.

Record AddSlotsData : Type := {
  as_date : option string;
  as_start_time : option string;
  as_end_time : option string;
  as_capacity : option Z
}.

Record BookData : Type := {
  bk_doctor_id : option ident;
  bk_appointment_date : option string;
  bk_appointment_time : option string;
  bk_consultation_notes : option string
}.

(** ** Routes *)

Section Routes.
Context {E : External}.

(** [@jwt_required()]: the view runs only for a token that verifies;
    [get_jwt_identity()] is then the identity handed to the view.  Otherwise
    the library answers. *)
Definition jwt_required (auth : option string)
    (view : ident -> Store -> Response * Store) (s : Store)
    : Response * Store :=
  match auth with
  | Some token =>
      match decode_token token with
      | Some jwt_identity => view jwt_identity s
      | None => (jwt_error auth, s)
      end
  | None => (jwt_error auth, s)
  end.

(** *** Auth routes *)

Definition patient_register (env : Env) (data : PatientRegisterData)
    (s : Store) : Response * Store :=
  match pr_first_name data, pr_last_name data, pr_email data,
        pr_phone data, pr_password data with
  | Some fn, Some ln, Some em, Some ph, Some pw =>
      match first (filter_by (fun p => Patient.email p =? em) (patients s)) with
      | Some _ => (error "Email already exists" 400, s)
      | None =>
          let patient :=
            Patient.set_password (Patient.new (uuid4 env) fn ln em ph)
                                 (salt env) pw in
          match add_commit [Patient.id; Patient.email] patient (patients s) with
          | None => (internal_error, s)
          | Some tbl =>
              let access_token := create_access_token (Patient.id patient) in
              ((JDict [("message", JStr "Patient registered successfully");
                       ("access_token", JStr access_token);
                       ("patient", Patient.to_dict patient)], 201),
               set_patients s tbl)
          end
      end
  | _, _, _, _, _ => (error "Missing required fields" 400, s)
  end.

Definition patient_login (data : LoginData) (s : Store) : Response * Store :=
  match lg_email data with
  | None => (internal_error, s)
  | Some em =>
      match first (filter_by (fun p => Patient.email p =? em) (patients s)) with
      | None => (error "Invalid credentials" 401, s)
      | Some patient =>
          match lg_password data with
          | None => (internal_error, s)
          | Some pw =>
              if negb (Patient.check_password patient pw)
              then (error "Invalid credentials" 401, s)
              else
                let access_token := create_access_token (Patient.id patient) in
                ((JDict [("access_token", JStr access_token);
                         ("patient", Patient.to_dict patient)], 200), s)
          end
      end
  end.

Definition doctor_register (env : Env) (data : DoctorRegisterData)
    (s : Store) : Response * Store :=
  match dr_first_name data, dr_last_name data, dr_email data, dr_phone data,
        dr_password data, dr_specialization data, dr_license_number data with
  | Some fn, Some ln, Some em, Some ph, Some pw, Some spec, Some lic =>
      match first (filter_by (fun d => Doctor.email d =? em) (doctors s)) with
      | Some _ => (error "Email already exists" 400, s)
      | None =>
          let doctor :=
            Doctor.set_password
              (Doctor.new (uuid4 env) fn ln em ph spec lic
                          (get_default (dr_consultation_fee data) 500%Q))
              (salt env) pw in
          match add_commit [Doctor.id; Doctor.email; Doctor.license_number]
                           doctor (doctors s) with
          | None => (internal_error, s)
          | Some tbl =>
              let access_token := create_access_token (Doctor.id doctor) in
              ((JDict [("message", JStr "Doctor registered successfully");
                       ("access_token", JStr access_token);
                       ("doctor", Doctor.to_dict doctor)], 201),
               set_doctors s tbl)
          end
      end
  | _, _, _, _, _, _, _ => (error "Missing required fields" 400, s)
  end.

Definition doctor_login (data : LoginData) (s : Store) : Response * Store :=
  match lg_email data with
  | None => (internal_error, s)
  | Some em =>
      match first (filter_by (fun d => Doctor.email d =? em) (doctors s)) with
      | None => (error "Invalid credentials" 401, s)
      | Some doctor =>
          match lg_password data with
          | None => (internal_error, s)
          | Some pw =>
              if negb (Doctor.check_password doctor pw)
              then (error "Invalid credentials" 401, s)
              else
                let access_token := create_access_token (Doctor.id doctor) in
                ((JDict [("access_token", JStr access_token);
                         ("doctor", Doctor.to_dict doctor)], 200), s)
          end
      end
  end.

(** *** Doctor routes *)

Definition get_doctors (specialization : option string) (s : Store)
    : Response * Store :=
  let query := filter_by Doctor.is_available (doctors s) in
  let query :=
    match truthy specialization with
    | Some sp => filter_by (fun d => Doctor.specialization d =? sp) query
    | None => query
    end in
  ((JDict [("doctors", JList (map Doctor.to_dict query));
           ("count", len query)], 200), s).

Definition get_doctor (doctor_id : ident) (s : Store) : Response * Store :=
  match query_get Doctor.id (doctors s) doctor_id with
  | None => (error "Doctor not found" 404, s)
  | Some doctor => ((Doctor.to_dict doctor, 200), s)
  end.

Definition get_available_slots (doctor_id : ident) (date : option string)
    (s : Store) : Response * Store :=
  match query_get Doctor.id (doctors s) doctor_id with
  | None => (error "Doctor not found" 404, s)
  | Some _ =>
      let query :=
        filter_by (fun t => (TimeSlot.doctor_id t =? doctor_id)
                            && TimeSlot.is_available t) (time_slots s) in
      let query :=
        match truthy date with
        | Some d => filter_by (fun t => TimeSlot.date t =? d) query
        | None => query
        end in
      ((JDict [("slots", JList (map TimeSlot.to_dict query));
               ("count", len query)], 200), s)
  end.

Definition add_time_slots (env : Env) (auth : option string)
    (doctor_id : ident) (data : AddSlotsData) (s : Store)
    : Response * Store :=
  jwt_required auth (fun _ s =>
    match query_get Doctor.id (doctors s) doctor_id with
    | None => (error "Doctor not found" 404, s)
    | Some _ =>
        match as_date data, as_start_time data, as_end_time data with
        | Some d, Some st, Some et =>
            (* the commit binds the three strings of the body *)
            match bind_date (PyStr d), bind_time (PyStr st),
                  bind_time (PyStr et) with
            | Some d, Some st, Some et =>
                let slot :=
                  TimeSlot.new (uuid4 env) doctor_id d st et
                               (get_default (as_capacity data) 1) in
                match add_commit [TimeSlot.id] slot (time_slots s) with
                | None => (internal_error, s)
                | Some tbl =>
                    ((JDict [("message", JStr "Time slot added successfully");
                             ("slot", TimeSlot.to_dict slot)], 201),
                     set_time_slots s tbl)
                end
            | _, _, _ => (internal_error, s)
            end
        | _, _, _ => (internal_error, s)
        end
    end) s.

(** *** Appointment routes *)

Definition book_appointment (env : Env) (auth : option string)
    (data : BookData) (s : Store) : Response * Store :=
  jwt_required auth (fun patient_id s =>
    let patient := query_get Patient.id (patients s) patient_id in
    match bk_doctor_id data with
    | None => (internal_error, s)
    | Some doctor_id =>
        let doctor := query_get Doctor.id (doctors s) doctor_id in
        match patient, doctor with
        | Some _, Some _ =>
            match bk_appointment_date data, bk_appointment_time data with
            | Some d, Some tm =>
                (* the commit binds the two strings of the body *)
                match bind_date (PyStr d), bind_time (PyStr tm) with
                | Some d, Some tm =>
                    let appointment :=
                      Appointment.new (uuid4 env) patient_id doctor_id d tm
                                      (bk_consultation_notes data) in
                    match add_commit [Appointment.id] appointment
                                     (appointments s) with
                    | None => (internal_error, s)
                    | Some tbl =>
                        ((JDict [("message",
                                  JStr "Appointment booked successfully");
                                 ("appointment",
                                  Appointment.to_dict appointment)], 201),
                         set_appointments s tbl)
                    end
                | _, _ => (internal_error, s)
                end
            | _, _ => (internal_error, s)
            end
        | _, _ => (error "Patient or Doctor not found" 404, s)
        end
    end) s.

Definition get_appointment (appointment_id : ident) (s : Store)
    : Response * Store :=
  match query_get Appointment.id (appointments s) appointment_id with
  | None => (error "Appointment not found" 404, s)
  | Some appointment => ((Appointment.to_dict appointment, 200), s)
  end.

Definition get_patient_appointments (auth : option string)
    (patient_id : ident) (status : option string) (s : Store)
    : Response * Store :=
  jwt_required auth (fun _ s =>
    let query :=
      filter_by (fun a => Appointment.patient_id a =? patient_id)
                (appointments s) in
    let query :=
      match truthy status with
      | Some st => filter_by (fun a => Appointment.status a =? st) query
      | None => query
      end in
    ((JDict [("appointments", JList (map Appointment.to_dict query));
             ("count", len query)], 200), s)) s.

Definition cancel_appointment (auth : option string) (appointment_id : ident)
    (s : Store) : Response * Store :=
  jwt_required auth (fun _ s =>
    match query_get Appointment.id (appointments s) appointment_id with
    | None => (error "Appointment not found" 404, s)
    | Some appointment =>
        let appointment :=
          Appointment.set_status appointment (value CANCELLED) in
        ((JDict [("message", JStr "Appointment cancelled successfully");
                 ("appointment", Appointment.to_dict appointment)], 200),
         set_appointments s
           (update_where Appointment.id appointment_id
              (fun a => Appointment.set_status a (value CANCELLED))
              (appointments s)))
    end) s.

Definition confirm_appointment (auth : option string) (appointment_id : ident)
    (s : Store) : Response * Store :=
  jwt_required auth (fun _ s =>
    match query_get Appointment.id (appointments s) appointment_id with
    | None => (error "Appointment not found" 404, s)
    | Some appointment =>
        let appointment :=
          Appointment.set_status appointment (value CONFIRMED) in
        ((JDict [("message", JStr "Appointment confirmed");
                 ("appointment", Appointment.to_dict appointment)], 200),
         set_appointments s
           (update_where Appointment.id appointment_id
              (fun a => Appointment.set_status a (value CONFIRMED))
              (appointments s)))
    end) s.

(** *** The application as a transition system *)

Inductive Request : Type :=
| PatientRegister (data : PatientRegisterData)
| PatientLogin (data : LoginData)
| DoctorRegister (data : DoctorRegisterData)
| DoctorLogin (data : LoginData)
| GetDoctors (specialization : option string)
| GetDoctor (doctor_id : ident)
| GetAvailableSlots (doctor_id : ident) (date : option string)
| AddTimeSlots (auth : option string) (doctor_id : ident) (data : AddSlotsData)
| BookAppointment (auth : option string) (data : BookData)
| GetAppointment (appointment_id : ident)
| GetPatientAppointments (auth : option string) (patient_id : ident)
                         (status : option string)
| CancelAppointment (auth : option string) (appointment_id : ident)
| ConfirmAppointment (auth : option string) (appointment_id : ident).

(** The URL map: one request served by its view. *)
Definition handle (env : Env) (r : Request) (s : Store) : Response * Store :=
  match r with
  | PatientRegister data => patient_register env data s
  | PatientLogin data => patient_login data s
  | DoctorRegister data => doctor_register env data s
  | DoctorLogin data => doctor_login data s
  | GetDoctors sp => get_doctors sp s
  | GetDoctor did => get_doctor did s
  | GetAvailableSlots did d => get_available_slots did d s
  | AddTimeSlots auth did data => add_time_slots env auth did data s
  | BookAppointment auth data => book_appointment env auth data s
  | GetAppointment aid => get_appointment aid s
  | GetPatientAppointments auth pid st => get_patient_appointments auth pid st s
  | CancelAppointment auth aid => cancel_appointment auth aid s
  | ConfirmAppointment auth aid => confirm_appointment auth aid s
  end.

(** The store after serving a sequence of requests, oldest first. *)
Fixpoint run (trace : list (Env * Request)) (s : Store) : Store :=
  match trace with
  | [] => s
  | (env, r) :: rest => run rest (snd (handle env r s))
  end.

(** The stores the application can be in, from a new database. *)
Inductive reachable : Store -> Prop :=
| reachable_empty : reachable empty_store
| reachable_step (env : Env) (r : Request) (s : Store) :
    reachable s -> reachable (snd (handle env r s)).

End Routes.

(** ** Operations of the specification that [app.py] does not implement *)

(** Modelled from the spec: the error taxonomy of section 7, which [app.py]
    has no counterpart of beyond its HTTP status codes. *)
Inductive SpecError : Type :=
| ValidationError
| DuplicateIdentity
| InvalidCredentials
| NotFound
| InvalidTransition
| SlotFull
| InternalFault.

(** Modelled from the spec: the HTTP status section 7 gives each error. *)
Definition http_status (e : SpecError) : Z :=
  match e with
  | ValidationError => 400
  | DuplicateIdentity => 400
  | InvalidCredentials => 401
  | NotFound => 404
  | InvalidTransition => 409
  | SlotFull => 409
  | InternalFault => 500
  end.

Inductive Outcome : Type :=
| Success
| Failure (e : SpecError).

(** Modelled from the spec: [reserve(slotId)] of section 4.2, missing from
    [app.py] (no route reads or writes [booked_count]).  It checks
    [booked_count < capacity]; if true it increments [booked_count] and
    succeeds; if false it fails with [SlotFull].  An unknown slot id is
    [NotFound] (section 7). *)
Definition reserve (slot_id : ident) (s : Store) : Outcome * Store :=
  match query_get TimeSlot.id (time_slots s) slot_id with
  | None => (Failure NotFound, s)
  | Some slot =>
      if (TimeSlot.booked_count slot <? TimeSlot.capacity slot)%Z
      then (Success,
            set_time_slots s
              (update_where TimeSlot.id slot_id
                 (fun t => TimeSlot.set_booked_count t (TimeSlot.booked_count t + 1))
                 (time_slots s)))
      else (Failure SlotFull, s)
  end.

(** Modelled from the spec: [release(slotId)] of section 4.2, missing from
    [app.py]: it decrements [booked_count], floored at 0. *)
Definition release (slot_id : ident) (s : Store) : Outcome * Store :=
  match query_get TimeSlot.id (time_slots s) slot_id with
  | None => (Failure NotFound, s)
  | Some _ =>
      (Success,
       set_time_slots s
         (update_where TimeSlot.id slot_id
            (fun t => TimeSlot.set_booked_count t
                        (Z.max 0 (TimeSlot.booked_count t - 1)))
            (time_slots s)))
  end.

(** Modelled from the spec: "all ratings for that doctor", oldest first. *)
Definition ratings_of (doctor_id : ident) (tbl : list Review.t) : list Z :=
  map Review.rating (filter_by (fun r => Review.doctor_id r =? doctor_id) tbl).

Definition sum (l : list Z) : Z := fold_right Z.add 0 l.

(** Modelled from the spec: the arithmetic mean of section 4.4, over the
    rationals. *)
Definition mean (l : list Z) : Q :=
  (inject_Z (sum l) / inject_Z (Z.of_nat (length l)))%Q.

(** Modelled from the spec: [addReview(patientId, doctorId, appointmentId?,
    rating, comment?)] of section 4.4, missing from [app.py] (which declares
    the [Review] table and [Doctor.rating_average] but has no route that
    writes either).  It creates a Review, then recomputes and persists the
    doctor's [rating_average], a [Float] column, as the arithmetic mean of all
    ratings for that doctor; the rounding to 2 decimal places is the
    display's, in [Doctor.to_dict].  Unknown patient, doctor or appointment ids are
    [NotFound] (section 7); the rating is not validated (section 9). *)
Definition addReview (env : Env) (patientId doctorId : ident)
    (appointmentId : option ident) (rating : Z) (comment : option string)
    (s : Store) : Outcome * Store :=
  let appointment_known :=
    match appointmentId with
    | Some a =>
        match query_get Appointment.id (appointments s) a with
        | Some _ => true
        | None => false
        end
    | None => true
    end in
  match query_get Patient.id (patients s) patientId,
        query_get Doctor.id (doctors s) doctorId with
  | Some _, Some _ =>
      if appointment_known then
        let review :=
          Review.mk (uuid4 env) patientId doctorId appointmentId rating comment in
        match add_commit [Review.id] review (reviews s) with
        | None => (Failure InternalFault, s)
        | Some tbl =>
            let average := to_double (mean (ratings_of doctorId tbl)) in
            (Success,
             set_doctors (set_reviews s tbl)
               (update_where Doctor.id doctorId
                  (fun d => Doctor.set_rating_average d average) (doctors s)))
        end
      else (Failure NotFound, s)
  | _, _ => (Failure NotFound, s)
  end.

(** ** A concrete deployment, for running the handlers *)

(** An instance of the external capabilities: digests and tokens are tagged
    copies of their input. *)
Definition toy_external : External := {|
  generate_password_hash := fun _ password => "sha$" ++ password;
  check_password_hash := fun pwhash password => pwhash =? "sha$" ++ password;
  create_access_token := fun i => "jwt." ++ i;
  decode_token := fun token =>
    if prefix "jwt." token
    then Some (substring 4 (String.length token - 4) token)
    else None;
  jwt_error := fun auth =>
    match auth with
    | None => (JDict [("msg", JStr "Missing Authorization Header")], 401)
    | Some _ => (JDict [("msg", JStr "Not enough segments")], 422)
    end
|}.

Definition env_of (i : ident) : Env := {| uuid4 := i; salt := "na" |}.

Definition doctor_data (em lic : string) : DoctorRegisterData := {|
  dr_first_name := Some "Gregory";
  dr_last_name := Some "House";
  dr_email := Some em;
  dr_phone := Some "555-0100";
  dr_password := Some "vicodin";
  dr_specialization := Some "cardiology";
  dr_license_number := Some lic;
  dr_consultation_fee := None
|}.

Definition patient_data (em : string) : PatientRegisterData := {|
  pr_first_name := Some "Ada";
  pr_last_name := Some "Lovelace";
  pr_email := Some em;
  pr_phone := Some "555-0199";
  pr_password := Some "engine"
|}.

Definition slot_data (cap : option Z) : AddSlotsData := {|
  as_date := Some "2024-06-01";
  as_start_time := Some "10:00";
  as_end_time := Some "10:30";
  as_capacity := cap
|}.

Definition book_data (did : ident) : BookData := {|
  bk_doctor_id := Some did;
  bk_appointment_date := Some "2024-06-01";
  bk_appointment_time := Some "10:00";
  bk_consultation_notes := None
|}.

(** Doctor [D1] and patient [P1] register. *)
Definition trace_registered : list (Env * Request) :=
  [(env_of "D1", DoctorRegister (doctor_data "house@ppth.org" "L-1"));
   (env_of "P1", PatientRegister (patient_data "ada@example.org"))].

Definition store_registered : Store :=
  run (E := toy_external) trace_registered empty_store.

(** Rows that do not come from a route (no route stores a slot or an
    appointment): a free slot [S1] of capacity [cap], a slot [S2] booked to
    its capacity, and appointment [A1] in a given status. *)
Definition slot_S1 (cap : Z) : TimeSlot.t :=
  TimeSlot.mk "S1" "D1" "2024-06-01" "10:00:00" "10:30:00" true cap 0.

Definition slot_full : TimeSlot.t :=
  TimeSlot.mk "S2" "D1" "2024-06-01" "11:00:00" "11:30:00" true 1 1.

Definition appointment_A1 (st : AppointmentStatus) : Appointment.t :=
  Appointment.mk "A1" "P1" "D1" "2024-06-01" "10:00:00" (value st) None None.

(** The database of [store_registered] into which a slot, respectively the
    cancelled appointment [A1], was inserted directly. *)
Definition store_slot (t : TimeSlot.t) : Store :=
  set_time_slots store_registered [t].

Definition store_cancelled : Store :=
  set_appointments store_registered [appointment_A1 CANCELLED].

(** Does a slot pass the optional date filter of the query string? *)
Definition date_matches (date : option string) (t : TimeSlot.t) : bool :=
  match truthy date with
  | Some d => TimeSlot.date t =? d
  | None => true
  end.

(** The rows [get_available_slots] selects. *)
Definition available_rows (doctor_id : ident) (date : option string)
    (s : Store) : list TimeSlot.t :=
  filter_by (fun t => (TimeSlot.doctor_id t =? doctor_id)
                      && TimeSlot.is_available t && date_matches date t)
            (time_slots s).

(** A login body that carries both keys. *)
Definition login_data (em pw : string) : LoginData :=
  {| lg_email := Some em; lg_password := Some pw |}.

(** [Patient.query.filter_by(email=em).first()] *)
Definition patient_by_email (s : Store) (em : string) : option Patient.t :=
  first (filter_by (fun p => Patient.email p =? em) (patients s)).

(** [Doctor.query.filter_by(email=em).first()] *)
Definition doctor_by_email (s : Store) (em : string) : option Doctor.t :=
  first (filter_by (fun d => Doctor.email d =? em) (doctors s)).

(** Registration bodies that carry every required key. *)
Definition patient_fields (fn ln em ph pw : string) : PatientRegisterData :=
  {| pr_first_name := Some fn; pr_last_name := Some ln; pr_email := Some em;
     pr_phone := Some ph; pr_password := Some pw |}.

Definition doctor_fields (fn ln em ph pw spec lic : string) (fee : option Q)
    : DoctorRegisterData :=
  {| dr_first_name := Some fn; dr_last_name := Some ln; dr_email := Some em;
     dr_phone := Some ph; dr_password := Some pw; dr_specialization := Some spec;
     dr_license_number := Some lic; dr_consultation_fee := fee |}.

(** [d[key]] on a JSON object. *)
Definition dict_get (key : string) (j : Json) : option Json :=
  match j with
  | JDict d => option_map snd (find (fun kv => fst kv =? key) d)
  | _ => None
  end.

(** [P1] reviews [D1] three times, with ratings 4, 5 and 3. *)
Definition store_reviewed1 : Store :=
  snd (addReview (env_of "R1") "P1" "D1" None 4 None store_registered).

Definition store_reviewed2 : Store :=
  snd (addReview (env_of "R2") "P1" "D1" None 5 (Some "thorough") store_reviewed1).

Definition store_reviewed : Store :=
  snd (addReview (env_of "R3") "P1" "D1" None 3 None store_reviewed2).

(** The views served by GET and the two logins. *)
Definition is_read (r : Request) : bool :=
  match r with
  | PatientLogin _ | DoctorLogin _ | GetDoctors _ | GetDoctor _
  | GetAvailableSlots _ _ | GetAppointment _ | GetPatientAppointments _ _ _ => true
  | _ => false
  end.

(** What serving one request can do to the store: nothing, one committed
    patient or doctor, or one status update; with the status code answered. *)
Inductive Effect (env : Env) (s : Store) : Z -> Store -> Prop :=
| eff_none code : Effect env s code s
| eff_patient p tbl :
    Patient.id p = uuid4 env ->
    add_commit [Patient.id; Patient.email] p (patients s) = Some tbl ->
    Effect env s 201 (set_patients s tbl)
| eff_doctor d tbl :
    Doctor.id d = uuid4 env ->
    Doctor.experience_years d = 0 -> Doctor.bio d = None ->
    Doctor.rating_average d = 0%Q -> Doctor.is_available d = true ->
    add_commit [Doctor.id; Doctor.email; Doctor.license_number] d (doctors s)
    = Some tbl ->
    Effect env s 201 (set_doctors s tbl)
| eff_status aid a st :
    query_get Appointment.id (appointments s) aid = Some a ->
    st = CONFIRMED \/ st = CANCELLED ->
    Effect env s 200
      (set_appointments s
         (update_where Appointment.id aid
            (fun a => Appointment.set_status a (value st)) (appointments s))).

(** * Properties *)

(** ** Queries *)

Ltac break_match :=
  match goal with
  | |- context [match ?x with _ => _ end] => destruct x eqn:?
  | H : context [match ?x with _ => _ end] |- _ => destruct x eqn:?
  end.

(** Every path through every view, for a request [r]. *)
Ltac unfold_routes :=
  unfold patient_register, patient_login, doctor_register, doctor_login,
         get_doctors, get_doctor, get_available_slots, add_time_slots,
         book_appointment, get_appointment, get_patient_appointments,
         cancel_appointment, confirm_appointment, jwt_required.

Ltac route_cases r :=
  destruct r; simpl; unfold_routes;
  repeat (cbn [bind_date bind_time]; break_match).

Section QueryFacts.
Context {A : Type}.
Implicit Types (tbl : list A) (pk col : A -> string) (p q : A -> bool).

Lemma filter_by_filter_by p q tbl :
  filter_by p (filter_by q tbl) = filter_by (fun r => q r && p r) tbl.
Proof.
  unfold filter_by.
  induction tbl as [|r tbl IH]; simpl; [reflexivity|].
  destruct (q r); simpl; [destruct (p r)|]; rewrite IH; reflexivity.
Qed.

Lemma filter_by_nil_iff p tbl :
  filter_by p tbl = [] <-> forall r, In r tbl -> p r = false.
Proof.
  unfold filter_by.
  induction tbl as [|r tbl IH]; simpl.
  - split; [intros _ r [] | reflexivity].
  - destruct (p r) eqn:Hr; split.
    + discriminate.
    + intros H. rewrite (H r (or_introl eq_refl)) in Hr. discriminate.
    + intros H r' [<-|Hin]; [exact Hr | apply IH; assumption].
    + intros H. apply IH. intros r' Hin. apply H. right. exact Hin.
Qed.

Lemma first_filter_by_Some p tbl r :
  first (filter_by p tbl) = Some r -> In r tbl /\ p r = true.
Proof.
  intros H.
  assert (Hin : In r (filter p tbl)).
  { unfold filter_by in H. destruct (filter p tbl); simpl in H;
      [discriminate | injection H as ->; left; reflexivity]. }
  apply filter_In in Hin. exact Hin.
Qed.

Lemma first_filter_by_None p tbl :
  first (filter_by p tbl) = None <-> forall r, In r tbl -> p r = false.
Proof.
  rewrite <- filter_by_nil_iff.
  destruct (filter_by p tbl); simpl; split; congruence.
Qed.

Lemma query_get_Some pk tbl i r :
  query_get pk tbl i = Some r -> In r tbl /\ pk r = i.
Proof.
  unfold query_get. intros H. apply find_some in H.
  destruct H as [Hin Heq]. apply String.eqb_eq in Heq. split; assumption.
Qed.

Lemma query_get_None pk tbl i :
  query_get pk tbl i = None <-> forall r, In r tbl -> pk r <> i.
Proof.
  unfold query_get. split.
  - intros H r Hin Heq.
    pose proof (find_none _ _ H r Hin) as Hne. simpl in Hne.
    apply String.eqb_neq in Hne. contradiction.
  - intros H. induction tbl as [|r tbl IH]; simpl; [reflexivity|].
    destruct (pk r =? i) eqn:Hr.
    + apply String.eqb_eq in Hr. exfalso. apply (H r); [left; reflexivity | exact Hr].
    + apply IH. intros r' Hin. apply H. right. exact Hin.
Qed.

(** A row committed by [UPDATE ... WHERE id = i] is read back modified,
    when the modification keeps the primary key. *)
Lemma query_get_update_where pk i f tbl :
  (forall r, pk (f r) = pk r) ->
  query_get pk (update_where pk i f tbl) i = option_map f (query_get pk tbl i).
Proof.
  intros Hpk. unfold query_get, update_where.
  induction tbl as [|r tbl IH]; simpl; [reflexivity|].
  destruct (pk r =? i) eqn:Hr.
  - rewrite Hpk, Hr. reflexivity.
  - rewrite Hr. exact IH.
Qed.

Lemma query_get_update_where_other pk i j f tbl :
  (forall r, pk (f r) = pk r) -> i <> j ->
  query_get pk (update_where pk i f tbl) j = query_get pk tbl j.
Proof.
  intros Hpk Hij. unfold query_get, update_where.
  induction tbl as [|r tbl IH]; simpl; [reflexivity|].
  destruct (pk r =? i) eqn:Hr.
  - rewrite Hpk. apply String.eqb_eq in Hr.
    assert (Hj : (pk r =? j) = false) by (apply String.eqb_neq; congruence).
    rewrite Hj. exact IH.
  - destruct (pk r =? j); [reflexivity | exact IH].
Qed.

(** A commit that checks only the primary key fails exactly on a key that
    is already in the table. *)
Lemma add_commit_pk pk r tbl :
  add_commit [pk] r tbl
  = match query_get pk tbl (pk r) with
    | Some _ => None
    | None => Some (tbl ++ [r])%list
    end.
Proof.
  unfold add_commit, violates, query_get. simpl. rewrite orb_false_r.
  assert (H : existsb (fun r' => pk r' =? pk r) tbl
              = match find (fun r' => pk r' =? pk r) tbl with
                | Some _ => true
                | None => false
                end).
  { induction tbl as [|r' tbl' IH]; simpl; [reflexivity|].
    destruct (pk r' =? pk r); simpl; [reflexivity | exact IH]. }
  rewrite H. destruct (find _ tbl); reflexivity.
Qed.

Lemma add_commit_Some uniques r tbl tbl' :
  add_commit uniques r tbl = Some tbl' -> tbl' = (tbl ++ [r])%list.
Proof.
  unfold add_commit. destruct (violates uniques r tbl); congruence.
Qed.

Lemma violates_true_iff uniques r tbl :
  violates uniques r tbl = true
  <-> exists col r', In col uniques /\ In r' tbl /\ col r' = col r.
Proof.
  unfold violates. rewrite existsb_exists. split.
  - intros [col [Hcol H]]. apply existsb_exists in H.
    destruct H as [r' [Hin Heq]]. apply String.eqb_eq in Heq.
    exists col, r'. auto.
  - intros [col [r' [Hcol [Hin Heq]]]]. exists col. split; [exact Hcol|].
    apply existsb_exists. exists r'. split; [exact Hin|].
    apply String.eqb_eq. exact Heq.
Qed.
End QueryFacts.

Section RouteFacts.
Context {E : External}.

Lemma jwt_required_valid token who view s :
  decode_token token = Some who ->
  jwt_required (Some token) view s = view who s.
Proof. intros H. unfold jwt_required. rewrite H. reflexivity. Qed.

Lemma reachable_run trace s : reachable s -> reachable (run trace s).
Proof.
  revert s. induction trace as [|[env r] trace IH]; intros s Hs; simpl.
  - exact Hs.
  - apply IH. apply reachable_step. exact Hs.
Qed.
End RouteFacts.

(** ** Appointment transitions (C1) *)

Section Transitions.
Context {E : External}.

Lemma set_status_id a st : Appointment.id (Appointment.set_status a st) = Appointment.id a.
Proof. reflexivity. Qed.

(** C1, as the code has it: for a caller whose token verifies, confirm and
    cancel succeed on every existing appointment whatever its status,
    terminal or not, answer 200 and store CONFIRMED, respectively
    CANCELLED; they fail only with 404 on an unknown appointment id, and
    then leave the store unchanged.  No route answers InvalidTransition. *)
Theorem confirm_cancel_ignore_status token who appointment_id s :
  decode_token token = Some who ->
  (forall a, query_get Appointment.id (appointments s) appointment_id = Some a ->
     let confirmed := Appointment.set_status a (value CONFIRMED) in
     let cancelled := Appointment.set_status a (value CANCELLED) in
     fst (confirm_appointment (Some token) appointment_id s)
     = (JDict [("message", JStr "Appointment confirmed");
               ("appointment", Appointment.to_dict confirmed)], 200)
     /\ query_get Appointment.id
          (appointments (snd (confirm_appointment (Some token) appointment_id s)))
          appointment_id = Some confirmed
     /\ fst (cancel_appointment (Some token) appointment_id s)
        = (JDict [("message", JStr "Appointment cancelled successfully");
                  ("appointment", Appointment.to_dict cancelled)], 200)
     /\ query_get Appointment.id
          (appointments (snd (cancel_appointment (Some token) appointment_id s)))
          appointment_id = Some cancelled)
  /\ (query_get Appointment.id (appointments s) appointment_id = None ->
      confirm_appointment (Some token) appointment_id s
      = (error "Appointment not found" 404, s)
      /\ cancel_appointment (Some token) appointment_id s
         = (error "Appointment not found" 404, s)).
Proof.
  intros Htok. unfold confirm_appointment, cancel_appointment.
  rewrite !(jwt_required_valid _ _ _ _ Htok). split.
  - intros a Ha. cbv zeta. rewrite Ha. simpl fst. simpl snd.
    unfold set_appointments. simpl appointments.
    rewrite !query_get_update_where by (intros; apply set_status_id).
    rewrite Ha. simpl. repeat split.
  - intros Ha. rewrite Ha. split; reflexivity.
Qed.
End Transitions.

(** The theorem above at the cancelled appointment [A1]: the doctor's token
    confirms it. *)
Lemma confirm_cancel_ignore_status_witness :
  decode_token (External := toy_external) "jwt.D1" = Some "D1"
  /\ query_get Appointment.id (appointments store_cancelled) "A1"
     = Some (appointment_A1 CANCELLED)
  /\ fst (confirm_appointment (E := toy_external) (Some "jwt.D1") "A1" store_cancelled)
     = (JDict [("message", JStr "Appointment confirmed");
               ("appointment", Appointment.to_dict (appointment_A1 CONFIRMED))], 200).
Proof.
  assert (Htok : decode_token (External := toy_external) "jwt.D1" = Some "D1")
    by reflexivity.
  assert (Hget : query_get Appointment.id (appointments store_cancelled) "A1"
                 = Some (appointment_A1 CANCELLED)) by reflexivity.
  split; [exact Htok | split; [exact Hget|]].
  exact (proj1 (proj1 (confirm_cancel_ignore_status
                         (E := toy_external) "jwt.D1" "D1" "A1" store_cancelled Htok)
                      (appointment_A1 CANCELLED) Hget)).
Defined.

(** C1 as stated fails: on a database that holds appointment [A1] in the
    terminal status CANCELLED, confirm answers 200, not the 409 of
    InvalidTransition, and the stored status becomes CONFIRMED. *)
Lemma confirm_after_cancel_succeeds :
  query_get Appointment.id (appointments store_cancelled) "A1"
  = Some (appointment_A1 CANCELLED)
  /\ snd (fst (confirm_appointment (E := toy_external) (Some "jwt.P1") "A1"
                 store_cancelled)) = 200
  /\ 200 <> http_status InvalidTransition
  /\ query_get Appointment.id
       (appointments (snd (confirm_appointment (E := toy_external) (Some "jwt.P1")
                             "A1" store_cancelled))) "A1"
     = Some (appointment_A1 CONFIRMED).
Proof.
  repeat split; try reflexivity. discriminate.
Qed.

(** ** Slots (C2, C3) *)

Section Slots.
Context {E : External}.

(** No route writes the slot table: add-slots, the only route that commits
    a slot, binds the strings of its body to [Date] and [Time] columns. *)
Lemma handle_time_slots env r s :
  time_slots (snd (handle env r s)) = time_slots s.
Proof. route_cases r; reflexivity. Qed.


Lemma reachable_no_slots s : reachable s -> time_slots s = [].
Proof.
  induction 1 as [|env r s Hs IH]; [reflexivity|].
  rewrite handle_time_slots. exact IH.
Qed.


(** What the booking view itself answers, once the token verifies. *)
Lemma book_appointment_status env token who data s :
  decode_token token = Some who ->
  snd (fst (book_appointment env (Some token) data s)) = 404
  \/ snd (fst (book_appointment env (Some token) data s)) = 500.
Proof.
  intros Htok. unfold book_appointment.
  rewrite (jwt_required_valid _ _ _ _ Htok).
  cbn [bind_date bind_time]. repeat break_match; simpl; auto.
Qed.

Lemma set_booked_count_id t n : TimeSlot.id (TimeSlot.set_booked_count t n) = TimeSlot.id t.
Proof. reflexivity. Qed.

(** C2, as the code has it: booking does not look at slots.  The response
    of [book_appointment] is the same whatever the slot table holds, the
    view never answers the 409 of SlotFull, and the slot table is left as it
    was.  The [reserve] of the specification, which no route calls,
    increments [booked_count] when [booked_count < capacity] held before the
    call, and otherwise fails with SlotFull and changes nothing. *)
Theorem booking_ignores_slots env auth data s :
  (forall tbl,
     fst (book_appointment env auth data (set_time_slots s tbl))
     = fst (book_appointment env auth data s))
  /\ time_slots (snd (book_appointment env auth data s)) = time_slots s
  /\ (forall token who, auth = Some token -> decode_token token = Some who ->
        snd (fst (book_appointment env auth data s)) <> http_status SlotFull)
  /\ (forall slot_id slot,
        query_get TimeSlot.id (time_slots s) slot_id = Some slot ->
        (TimeSlot.booked_count slot < TimeSlot.capacity slot ->
         fst (reserve slot_id s) = Success
         /\ query_get TimeSlot.id (time_slots (snd (reserve slot_id s))) slot_id
            = Some (TimeSlot.set_booked_count slot (TimeSlot.booked_count slot + 1)))
        /\ (TimeSlot.capacity slot <= TimeSlot.booked_count slot ->
            reserve slot_id s = (Failure SlotFull, s))).
Proof.
  split; [|split; [|split]].
  - intros tbl. unfold book_appointment, jwt_required. simpl.
    repeat break_match; simpl; congruence.
  - unfold book_appointment, jwt_required. cbn [bind_date bind_time].
    repeat break_match; reflexivity.
  - intros token who -> Htok.
    destruct (book_appointment_status env token who data s Htok) as [H | H];
      rewrite H; discriminate.
  - intros slot_id slot Hget. unfold reserve. rewrite Hget. split.
    + intros Hlt. apply Z.ltb_lt in Hlt. rewrite Hlt. simpl.
      rewrite query_get_update_where by (intros; apply set_booked_count_id).
      rewrite Hget. split; reflexivity.
    + intros Hge. apply Z.ltb_ge in Hge. rewrite Hge. reflexivity.
Qed.
End Slots.

(** The theorem above on a database that holds the free slot [S1] of
    capacity 1: the reservation is admitted, and the booking answers what it
    answers without any slot. *)
Lemma booking_ignores_slots_witness :
  fst (reserve "S1" (store_slot (slot_S1 1))) = Success
  /\ fst (book_appointment (E := toy_external) (env_of "A1") (Some "jwt.P1")
            (book_data "D1") (store_slot (slot_S1 1)))
     = fst (book_appointment (E := toy_external) (env_of "A1") (Some "jwt.P1")
              (book_data "D1") store_registered).
Proof.
  pose proof (booking_ignores_slots (E := toy_external) (env_of "A1")
                (Some "jwt.P1") (book_data "D1") (store_slot (slot_S1 1)))
    as (Hirr & _ & _ & Hres).
  split.
  - refine (proj1 (proj1 (Hres "S1" (slot_S1 1) eq_refl) _)). reflexivity.
  - symmetry. exact (Hirr []).
Defined.

(** C2 as stated fails: on a database that holds slot [S2] of doctor [D1],
    booked to its capacity, a booking of [D1] at the slot's date and start
    time by the registered patient [P1] is not answered with the 409 of
    SlotFull; it gets the answer the same booking gets when the slot is the
    free [S1]. *)
Lemma book_full_slot_not_slot_full :
  In slot_full (time_slots (store_slot slot_full))
  /\ TimeSlot.booked_count slot_full = TimeSlot.capacity slot_full
  /\ snd (fst (book_appointment (E := toy_external) (env_of "A1") (Some "jwt.P1")
                 {| bk_doctor_id := Some "D1";
                    bk_appointment_date := Some "2024-06-01";
                    bk_appointment_time := Some "11:00";
                    bk_consultation_notes := None |}
                 (store_slot slot_full)))
     <> http_status SlotFull
  /\ fst (book_appointment (E := toy_external) (env_of "A1") (Some "jwt.P1")
            {| bk_doctor_id := Some "D1";
               bk_appointment_date := Some "2024-06-01";
               bk_appointment_time := Some "11:00";
               bk_consultation_notes := None |}
            (store_slot slot_full))
     = fst (book_appointment (E := toy_external) (env_of "A1") (Some "jwt.P1")
              {| bk_doctor_id := Some "D1";
                 bk_appointment_date := Some "2024-06-01";
                 bk_appointment_time := Some "11:00";
                 bk_consultation_notes := None |}
              (store_slot (slot_S1 1))).
Proof.
  split; [left; reflexivity|].
  repeat split; try reflexivity. discriminate.
Qed.


(** ** Available slots (C4, C10) *)

Lemma get_available_slots_rows doctor_id date s doctor :
  query_get Doctor.id (doctors s) doctor_id = Some doctor ->
  get_available_slots doctor_id date s
  = ((JDict [("slots", JList (map TimeSlot.to_dict (available_rows doctor_id date s)));
             ("count", len (available_rows doctor_id date s))], 200), s).
Proof.
  intros Hdoc. unfold get_available_slots, available_rows, date_matches.
  rewrite Hdoc. destruct (truthy date) as [d|].
  - rewrite filter_by_filter_by. reflexivity.
  - replace (filter_by (fun t => (TimeSlot.doctor_id t =? doctor_id)
                                 && TimeSlot.is_available t && true) (time_slots s))
      with (filter_by (fun t => (TimeSlot.doctor_id t =? doctor_id)
                                && TimeSlot.is_available t) (time_slots s)).
    + reflexivity.
    + unfold filter_by. apply filter_ext. intros t. rewrite andb_true_r. reflexivity.
Qed.

Lemma available_rows_In doctor_id date s t :
  In t (available_rows doctor_id date s)
  <-> In t (time_slots s) /\ TimeSlot.doctor_id t = doctor_id
      /\ TimeSlot.is_available t = true /\ date_matches date t = true.
Proof.
  unfold available_rows, filter_by. rewrite filter_In, !andb_true_iff, String.eqb_eq.
  tauto.
Qed.

(** C4, as the code has it: for an existing doctor the route returns, in
    table order, exactly the doctor's slots whose stored [is_available]
    column is true, restricted to the slots of the given date when a
    non-empty date is given.  The column is a stored flag; nothing relates
    it to [booked_count] and [capacity]. *)
Theorem available_slots_by_stored_flag doctor_id date s doctor :
  query_get Doctor.id (doctors s) doctor_id = Some doctor ->
  get_available_slots doctor_id date s
  = ((JDict [("slots", JList (map TimeSlot.to_dict (available_rows doctor_id date s)));
             ("count", len (available_rows doctor_id date s))], 200), s)
  /\ (forall t, In t (available_rows doctor_id date s)
        <-> In t (time_slots s) /\ TimeSlot.doctor_id t = doctor_id
            /\ TimeSlot.is_available t = true
            /\ match date with
               | Some d => d = "" \/ TimeSlot.date t = d
               | None => True
               end).
Proof.
  intros Hdoc. split; [apply (get_available_slots_rows _ _ _ _ Hdoc)|].
  intros t. rewrite available_rows_In. unfold date_matches, truthy.
  destruct date as [d|].
  - destruct (d =? "") eqn:Hd.
    + apply String.eqb_eq in Hd. tauto.
    + apply String.eqb_neq in Hd. rewrite String.eqb_eq. tauto.
  - tauto.
Qed.

(** The theorem above for doctor [D1] and the date of slot [S1], on a
    database that holds the slot. *)
Lemma available_slots_by_stored_flag_witness :
  get_available_slots "D1" (Some "2024-06-01") (store_slot (slot_S1 1))
  = ((JDict [("slots", JList [TimeSlot.to_dict (slot_S1 1)]); ("count", JInt 1)],
      200), store_slot (slot_S1 1)).
Proof.
  refine (proj1 (available_slots_by_stored_flag "D1" (Some "2024-06-01")
                   (store_slot (slot_S1 1))
                   (Doctor.mk "D1" "Gregory" "House" "house@ppth.org" "555-0100"
                              "sha$vicodin" "cardiology" "L-1" 500 0 None 0 true)
                   _)).
  reflexivity.
Defined.

(** C4 as stated fails: on a database that holds slot [S2], booked to its
    capacity and with its stored flag still true, [booked_count < capacity]
    is false for the slot, and the route lists it all the same. *)
Lemma full_slot_listed_as_available :
  In slot_full (time_slots (store_slot slot_full))
  /\ (TimeSlot.booked_count slot_full <? TimeSlot.capacity slot_full)%Z = false
  /\ fst (get_available_slots "D1" (Some "2024-06-01") (store_slot slot_full))
     = (JDict [("slots", JList [TimeSlot.to_dict slot_full]); ("count", JInt 1)],
        200).
Proof.
  split; [left; reflexivity|].
  split; reflexivity.
Qed.

(** C10: an unknown doctor id is answered 404 "Doctor not found", never a
    list; the empty list is answered exactly when the doctor exists and no
    slot of the doctor is flagged available and passes the date filter. *)
Theorem unknown_doctor_is_not_found doctor_id date s :
  (query_get Doctor.id (doctors s) doctor_id = None ->
   get_available_slots doctor_id date s = (error "Doctor not found" 404, s))
  /\ (fst (get_available_slots doctor_id date s)
      = (JDict [("slots", JList []); ("count", JInt 0)], 200)
      <-> (exists doctor, query_get Doctor.id (doctors s) doctor_id = Some doctor)
          /\ forall t, In t (time_slots s) -> TimeSlot.doctor_id t = doctor_id ->
               TimeSlot.is_available t = true -> date_matches date t = false).
Proof.
  split.
  - intros Hdoc. unfold get_available_slots. rewrite Hdoc. reflexivity.
  - destruct (query_get Doctor.id (doctors s) doctor_id) as [doctor|] eqn:Hdoc.
    + rewrite (get_available_slots_rows _ _ _ _ Hdoc). simpl fst.
      assert (Hnil : available_rows doctor_id date s = []
                     <-> forall t, In t (time_slots s) ->
                           TimeSlot.doctor_id t = doctor_id ->
                           TimeSlot.is_available t = true ->
                           date_matches date t = false).
      { unfold available_rows. rewrite filter_by_nil_iff. split.
        - intros H t Hin Hd Ha. specialize (H t Hin).
          apply String.eqb_eq in Hd. rewrite Hd, Ha in H. exact H.
        - intros H t Hin.
          destruct (TimeSlot.doctor_id t =? doctor_id) eqn:Hd; [|reflexivity].
          destruct (TimeSlot.is_available t) eqn:Ha; [|reflexivity].
          apply String.eqb_eq in Hd. simpl. apply H; assumption. }
      split.
      * intros Heq. split; [eauto|]. apply Hnil.
        injection Heq as Hmap _. apply map_eq_nil in Hmap. exact Hmap.
      * intros [_ H]. apply Hnil in H. rewrite H. reflexivity.
    + unfold get_available_slots. rewrite Hdoc. simpl. split.
      * discriminate.
      * intros [[doctor H] _]. discriminate.
Qed.

(** The theorem above on the store where only [D1] is a doctor: [D9] is
    unknown, and [D1], who has published nothing, gets the empty list. *)
Lemma unknown_doctor_is_not_found_witness :
  get_available_slots "D9" None store_registered
  = (error "Doctor not found" 404, store_registered)
  /\ fst (get_available_slots "D1" None store_registered)
     = (JDict [("slots", JList []); ("count", JInt 0)], 200).
Proof.
  split.
  - refine (proj1 (unknown_doctor_is_not_found "D9" None store_registered) _).
    reflexivity.
  - refine (proj2 (proj2 (unknown_doctor_is_not_found "D1" None store_registered)) _).
    split; [eexists; reflexivity|]. intros t [].
Defined.

(** ** Booking and listing appointments (C6, C9) *)

Section Appointments.
Context {E : External}.

(** C6, where the code departs from it: for a caller whose token verifies,
    the patient being the token's identity, booking answers 404 when the
    patient or the doctor of the body does not exist, as the claim says; but
    when both exist it creates nothing.  The date and the time of the body
    are strings, the commit binds them to the [Date] and [Time] columns of
    the SQLite database, which raise, and the answer is 500 "Internal server
    error", whatever the date, the time and the notes.  No booking request
    of any kind changes the store. *)
Theorem book_appointment_never_commits env token patient_id doctor_id d tm notes s :
  decode_token token = Some patient_id ->
  let data := {| bk_doctor_id := Some doctor_id;
                 bk_appointment_date := Some d;
                 bk_appointment_time := Some tm;
                 bk_consultation_notes := notes |} in
  (query_get Patient.id (patients s) patient_id = None
   \/ query_get Doctor.id (doctors s) doctor_id = None ->
   book_appointment env (Some token) data s
   = (error "Patient or Doctor not found" (http_status NotFound), s))
  /\ (forall patient doctor,
        query_get Patient.id (patients s) patient_id = Some patient ->
        query_get Doctor.id (doctors s) doctor_id = Some doctor ->
        book_appointment env (Some token) data s
        = (error "Internal server error" 500, s))
  /\ (forall auth' data', snd (book_appointment env auth' data' s) = s).
Proof.
  intros Htok data. split; [|split].
  - unfold book_appointment. rewrite (jwt_required_valid _ _ _ _ Htok).
    subst data. simpl.
    intros [H | H]; rewrite H; [|destruct (query_get Patient.id _ _)]; reflexivity.
  - intros patient doctor Hp Hd. unfold book_appointment.
    rewrite (jwt_required_valid _ _ _ _ Htok). subst data. simpl.
    rewrite Hp, Hd. reflexivity.
  - intros auth' data'. unfold book_appointment, jwt_required.
    cbn [bind_date bind_time]. repeat break_match; reflexivity.
Qed.

(** The rows [get_patient_appointments] selects. *)
Lemma patient_appointments_rows token who patient_id status s :
  decode_token token = Some who ->
  get_patient_appointments (Some token) patient_id status s
  = (let rows :=
       filter_by (fun a => (Appointment.patient_id a =? patient_id)
                           && match truthy status with
                              | Some st => Appointment.status a =? st
                              | None => true
                              end) (appointments s) in
     ((JDict [("appointments", JList (map Appointment.to_dict rows));
              ("count", len rows)], 200), s)).
Proof.
  intros Htok. unfold get_patient_appointments.
  rewrite (jwt_required_valid _ _ _ _ Htok). cbv zeta.
  destruct (truthy status) as [st|].
  - rewrite filter_by_filter_by. reflexivity.
  - replace (filter_by (fun a => (Appointment.patient_id a =? patient_id) && true)
                       (appointments s))
      with (filter_by (fun a => Appointment.patient_id a =? patient_id)
                      (appointments s)).
    + reflexivity.
    + unfold filter_by. apply filter_ext. intros a. rewrite andb_true_r. reflexivity.
Qed.

(** C9: two callers whose tokens verify get the same answer for the same
    patient id and status filter, whoever they are: the answer is the list
    of that patient's appointments (of that status, when one is given), so
    any authenticated identity reads any patient's list. *)
Theorem patient_appointments_ignore_caller token1 token2 who1 who2 patient_id status s :
  decode_token token1 = Some who1 ->
  decode_token token2 = Some who2 ->
  get_patient_appointments (Some token1) patient_id status s
  = get_patient_appointments (Some token2) patient_id status s
  /\ exists rows,
       fst (get_patient_appointments (Some token1) patient_id status s)
       = (JDict [("appointments", JList (map Appointment.to_dict rows));
                 ("count", len rows)], 200)
       /\ forall a, In a rows
            <-> In a (appointments s) /\ Appointment.patient_id a = patient_id
                /\ match truthy status with
                   | Some st => Appointment.status a = st
                   | None => True
                   end.
Proof.
  intros H1 H2.
  rewrite (patient_appointments_rows _ _ _ _ _ H1),
          (patient_appointments_rows _ _ _ _ _ H2).
  split; [reflexivity|]. cbv zeta. eexists. split; [reflexivity|].
  intros a. unfold filter_by. rewrite filter_In, andb_true_iff, String.eqb_eq.
  destruct (truthy status) as [st|].
  - rewrite String.eqb_eq. tauto.
  - tauto.
Qed.
End Appointments.

(** The theorem above at the failing input: the registered patient [P1]
    books the registered doctor [D1] for 2024-06-01 at 10:00. *)
Lemma book_appointment_never_commits_witness :
  decode_token (External := toy_external) "jwt.P1" = Some "P1"
  /\ book_appointment (E := toy_external) (env_of "A1") (Some "jwt.P1")
       (book_data "D1") store_registered
     = (error "Internal server error" 500, store_registered).
Proof.
  assert (Htok : decode_token (External := toy_external) "jwt.P1" = Some "P1")
    by reflexivity.
  split; [exact Htok|].
  refine (proj1 (proj2 (book_appointment_never_commits (E := toy_external)
                          (env_of "A1") "jwt.P1" "P1" "D1" "2024-06-01" "10:00" None
                          store_registered Htok))
                (Patient.mk "P1" "Ada" "Lovelace" "ada@example.org" "555-0199"
                            "sha$engine" None None None None)
                (Doctor.mk "D1" "Gregory" "House" "house@ppth.org" "555-0100"
                           "sha$vicodin" "cardiology" "L-1" 500 0 None 0 true)
                _ _); reflexivity.
Defined.

(** The listing theorem for the tokens of [D1] and [P1] reading the
    appointments of [P1]. *)
Lemma patient_appointments_ignore_caller_witness :
  get_patient_appointments (E := toy_external) (Some "jwt.D1") "P1" None store_cancelled
  = get_patient_appointments (E := toy_external) (Some "jwt.P1") "P1" None store_cancelled.
Proof.
  refine (proj1 (patient_appointments_ignore_caller (E := toy_external)
                   "jwt.D1" "jwt.P1" "D1" "P1" "P1" None store_cancelled _ _));
    reflexivity.
Defined.

(** ** Unique columns in reachable stores *)

Section Uniqueness.
Context {E : External}.

Lemma add_commit_NoDup {A : Type} (uniques : list (A -> string)) col r tbl tbl' :
  In col uniques -> NoDup (map col tbl) ->
  add_commit uniques r tbl = Some tbl' -> NoDup (map col tbl').
Proof.
  intros Hcol Hnd Hc. unfold add_commit in Hc.
  destruct (violates uniques r tbl) eqn:Hv; [discriminate|].
  injection Hc as <-. rewrite map_app. apply NoDup_app.
  - exact Hnd.
  - repeat constructor. intros [].
  - intros v Hin [<- | []]. apply in_map_iff in Hin.
    destruct Hin as (r' & Heq & Hin).
    assert (Hv' : violates uniques r tbl = true)
      by (apply violates_true_iff; exists col, r'; auto).
    congruence.
Qed.

(** A value of a unique column selects the row that has it. *)
Lemma first_filter_by_unique {A : Type} (col : A -> string) tbl r :
  NoDup (map col tbl) -> In r tbl ->
  first (filter_by (fun x => col x =? col r) tbl) = Some r.
Proof.
  unfold filter_by. induction tbl as [|x tbl IH]; simpl; intros Hnd Hin.
  - destruct Hin.
  - apply NoDup_cons_iff in Hnd. destruct Hnd as [Hx Hnd].
    destruct Hin as [-> | Hin].
    + rewrite String.eqb_refl. reflexivity.
    + destruct (col x =? col r) eqn:Heq.
      * apply String.eqb_eq in Heq. exfalso. apply Hx. rewrite Heq.
        apply in_map. exact Hin.
      * apply IH; assumption.
Qed.

Lemma handle_patients env r s :
  patients (snd (handle env r s)) = patients s
  \/ exists p, add_commit [Patient.id; Patient.email] p (patients s)
               = Some (patients (snd (handle env r s))).
Proof.
  route_cases r; simpl; eauto.
Qed.

Lemma handle_doctors env r s :
  doctors (snd (handle env r s)) = doctors s
  \/ exists d, add_commit [Doctor.id; Doctor.email; Doctor.license_number] d (doctors s)
               = Some (doctors (snd (handle env r s))).
Proof.
  route_cases r; simpl; eauto.
Qed.

(** The constraints [add_commit] enforces hold of every reachable store:
    no two patients share an id or an email, no two doctors share an id, an
    email or a license number. *)
Lemma reachable_unique s :
  reachable s ->
  NoDup (map Patient.id (patients s)) /\ NoDup (map Patient.email (patients s))
  /\ NoDup (map Doctor.id (doctors s)) /\ NoDup (map Doctor.email (doctors s))
  /\ NoDup (map Doctor.license_number (doctors s)).
Proof.
  induction 1 as [|env r s Hs (Hpi & Hpe & Hdi & Hde & Hdl)].
  - simpl. repeat split; constructor.
  - destruct (handle_patients env r s) as [-> | [p Hp]];
      destruct (handle_doctors env r s) as [-> | [d Hd]];
      repeat split; try assumption;
      try (eapply add_commit_NoDup; [| |exact Hp]; [simpl; tauto | assumption]);
      try (eapply add_commit_NoDup; [| |exact Hd]; [simpl; tauto | assumption]).
Qed.
End Uniqueness.

(** ** Login (C7) *)

Section Login.
Context {E : External}.

Lemma patient_by_email_None s em :
  patient_by_email s em = None <-> forall p, In p (patients s) -> Patient.email p <> em.
Proof.
  unfold patient_by_email. rewrite first_filter_by_None.
  split; intros H p Hin; specialize (H p Hin);
    [apply String.eqb_neq | apply String.eqb_neq]; exact H.
Qed.

Lemma doctor_by_email_None s em :
  doctor_by_email s em = None <-> forall d, In d (doctors s) -> Doctor.email d <> em.
Proof.
  unfold doctor_by_email. rewrite first_filter_by_None.
  split; intros H d Hin; specialize (H d Hin);
    [apply String.eqb_neq | apply String.eqb_neq]; exact H.
Qed.

Lemma patient_login_cases em pw s :
  patient_login (login_data em pw) s
  = match patient_by_email s em with
    | Some p =>
        if Patient.check_password p pw
        then ((JDict [("access_token", JStr (create_access_token (Patient.id p)));
                      ("patient", Patient.to_dict p)], 200), s)
        else (error "Invalid credentials" 401, s)
    | None => (error "Invalid credentials" 401, s)
    end.
Proof.
  unfold patient_login, patient_by_email. simpl.
  destruct (first _) as [p|]; [|reflexivity].
  destruct (Patient.check_password p pw); reflexivity.
Qed.

Lemma doctor_login_cases em pw s :
  doctor_login (login_data em pw) s
  = match doctor_by_email s em with
    | Some d =>
        if Doctor.check_password d pw
        then ((JDict [("access_token", JStr (create_access_token (Doctor.id d)));
                      ("doctor", Doctor.to_dict d)], 200), s)
        else (error "Invalid credentials" 401, s)
    | None => (error "Invalid credentials" 401, s)
    end.
Proof.
  unfold doctor_login, doctor_by_email. simpl.
  destruct (first _) as [d|]; [|reflexivity].
  destruct (Doctor.check_password d pw); reflexivity.
Qed.

(** When the emails of a table are unique, the record a login looks up is
    the record that has the email. *)
Lemma patient_by_email_reachable s em p :
  reachable s -> In p (patients s) -> Patient.email p = em ->
  patient_by_email s em = Some p.
Proof.
  intros Hs Hin <-. apply first_filter_by_unique; [|exact Hin].
  apply (reachable_unique s Hs).
Qed.

Lemma doctor_by_email_reachable s em d :
  reachable s -> In d (doctors s) -> Doctor.email d = em ->
  doctor_by_email s em = Some d.
Proof.
  intros Hs Hin <-. apply first_filter_by_unique; [|exact Hin].
  apply (reachable_unique s Hs).
Qed.

Lemma patient_login_ok em pw s :
  snd (fst (patient_login (login_data em pw) s)) = 200 ->
  exists p, patient_by_email s em = Some p /\ Patient.check_password p pw = true.
Proof.
  rewrite patient_login_cases.
  destruct (patient_by_email s em) as [p|]; [|discriminate].
  destruct (Patient.check_password p pw) eqn:Hc; [eauto | discriminate].
Qed.

Lemma doctor_login_ok em pw s :
  snd (fst (doctor_login (login_data em pw) s)) = 200 ->
  exists d, doctor_by_email s em = Some d /\ Doctor.check_password d pw = true.
Proof.
  rewrite doctor_login_cases.
  destruct (doctor_by_email s em) as [d|]; [|discriminate].
  destruct (Doctor.check_password d pw) eqn:Hc; [eauto | discriminate].
Qed.

(** C7: a login answers 200 with the identity exactly when a record with
    the email exists and the password verifies against its digest; when no
    record has the email and when the password is wrong the answer is one and
    the same, 401 "Invalid credentials".  Patients and doctors alike.  The
    record looked up is the first with the email, which in a reachable store
    is the only one. *)
Theorem login_failures_indistinguishable em pw s :
  (* patients *)
  (forall p, patient_by_email s em = Some p ->
     In p (patients s) /\ Patient.email p = em
     /\ (Patient.check_password p pw = true ->
         patient_login (login_data em pw) s
         = ((JDict [("access_token", JStr (create_access_token (Patient.id p)));
                    ("patient", Patient.to_dict p)], 200), s))
     /\ (Patient.check_password p pw = false ->
         patient_login (login_data em pw) s
         = (error "Invalid credentials" (http_status InvalidCredentials), s)))
  /\ ((forall p, In p (patients s) -> Patient.email p <> em) ->
      patient_login (login_data em pw) s
      = (error "Invalid credentials" (http_status InvalidCredentials), s))
  /\ (snd (fst (patient_login (login_data em pw) s)) = 200 ->
      exists p, In p (patients s) /\ Patient.email p = em
                /\ Patient.check_password p pw = true)
  /\ (reachable s -> forall p, In p (patients s) -> Patient.email p = em ->
      patient_by_email s em = Some p)
  (* doctors *)
  /\ (forall d, doctor_by_email s em = Some d ->
        In d (doctors s) /\ Doctor.email d = em
        /\ (Doctor.check_password d pw = true ->
            doctor_login (login_data em pw) s
            = ((JDict [("access_token", JStr (create_access_token (Doctor.id d)));
                       ("doctor", Doctor.to_dict d)], 200), s))
        /\ (Doctor.check_password d pw = false ->
            doctor_login (login_data em pw) s
            = (error "Invalid credentials" (http_status InvalidCredentials), s)))
  /\ ((forall d, In d (doctors s) -> Doctor.email d <> em) ->
      doctor_login (login_data em pw) s
      = (error "Invalid credentials" (http_status InvalidCredentials), s))
  /\ (snd (fst (doctor_login (login_data em pw) s)) = 200 ->
      exists d, In d (doctors s) /\ Doctor.email d = em
                /\ Doctor.check_password d pw = true)
  /\ (reachable s -> forall d, In d (doctors s) -> Doctor.email d = em ->
      doctor_by_email s em = Some d).
Proof.
  split; [|split; [|split; [|split; [|split; [|split; [|split]]]]]].
  - intros p Hp. rewrite patient_login_cases, Hp.
    apply first_filter_by_Some in Hp. destruct Hp as [Hin He].
    apply String.eqb_eq in He.
    repeat split; try assumption; intros ->; reflexivity.
  - intros Hnone. apply patient_by_email_None in Hnone.
    rewrite patient_login_cases, Hnone. reflexivity.
  - intros Hok. apply patient_login_ok in Hok. destruct Hok as (p & Hp & Hc).
    apply first_filter_by_Some in Hp. destruct Hp as [Hin He].
    apply String.eqb_eq in He. eauto.
  - intros Hs p. apply patient_by_email_reachable. exact Hs.
  - intros d Hd. rewrite doctor_login_cases, Hd.
    apply first_filter_by_Some in Hd. destruct Hd as [Hin He].
    apply String.eqb_eq in He.
    repeat split; try assumption; intros ->; reflexivity.
  - intros Hnone. apply doctor_by_email_None in Hnone.
    rewrite doctor_login_cases, Hnone. reflexivity.
  - intros Hok. apply doctor_login_ok in Hok. destruct Hok as (d & Hd & Hc).
    apply first_filter_by_Some in Hd. destruct Hd as [Hin He].
    apply String.eqb_eq in He. eauto.
  - intros Hs d. apply doctor_by_email_reachable. exact Hs.
Qed.
End Login.

(** The theorem above on the store where [P1] is registered: an unknown
    email and a wrong password get the same answer, the right password gets
    the identity. *)
Lemma login_failures_indistinguishable_witness :
  patient_login (E := toy_external) (login_data "eve@example.org" "engine")
    store_registered
  = patient_login (E := toy_external) (login_data "ada@example.org" "guess")
      store_registered
  /\ snd (fst (patient_login (E := toy_external)
                 (login_data "ada@example.org" "engine") store_registered)) = 200.
Proof.
  pose (ada := Patient.mk "P1" "Ada" "Lovelace" "ada@example.org" "555-0199"
                          "sha$engine" None None None None).
  destruct (login_failures_indistinguishable (E := toy_external)
              "eve@example.org" "engine" store_registered)
    as (_ & Hunknown & _).
  destruct (login_failures_indistinguishable (E := toy_external)
              "ada@example.org" "guess" store_registered)
    as (Hwrong & _).
  destruct (login_failures_indistinguishable (E := toy_external)
              "ada@example.org" "engine" store_registered)
    as (Hright & _).
  split.
  - rewrite Hunknown.
    + symmetry. exact (proj2 (proj2 (proj2 (Hwrong ada eq_refl))) eq_refl).
    + intros p [<- | []]. discriminate.
  - rewrite (proj1 (proj2 (proj2 (Hright ada eq_refl))) eq_refl). reflexivity.
Defined.

(** ** Registration (C5) *)

Section Registration.
Context {E : External}.

(** A request that lacks a required key is answered 400 "Missing required
    fields", and nothing is stored. *)
Lemma patient_register_missing_field env data s :
  pr_first_name data = None \/ pr_last_name data = None \/ pr_email data = None
  \/ pr_phone data = None \/ pr_password data = None ->
  patient_register env data s
  = (error "Missing required fields" (http_status ValidationError), s).
Proof.
  unfold patient_register.
  destruct (pr_first_name data), (pr_last_name data), (pr_email data),
           (pr_phone data), (pr_password data); try reflexivity.
  intros [H | [H | [H | [H | H]]]]; discriminate.
Qed.

Lemma doctor_register_missing_field env data s :
  dr_first_name data = None \/ dr_last_name data = None \/ dr_email data = None
  \/ dr_phone data = None \/ dr_password data = None
  \/ dr_specialization data = None \/ dr_license_number data = None ->
  doctor_register env data s
  = (error "Missing required fields" (http_status ValidationError), s).
Proof.
  unfold doctor_register.
  destruct (dr_first_name data), (dr_last_name data), (dr_email data),
           (dr_phone data), (dr_password data), (dr_specialization data),
           (dr_license_number data); try reflexivity.
  intros [H | [H | [H | [H | [H | [H | H]]]]]]; discriminate.
Qed.

(** An email that a record of the role already has is answered 400 "Email
    already exists"; the store, and so the earlier record, is unchanged. *)
Lemma patient_register_duplicate_email env fn ln em ph pw s p :
  In p (patients s) -> Patient.email p = em ->
  patient_register env (patient_fields fn ln em ph pw) s
  = (error "Email already exists" (http_status DuplicateIdentity), s).
Proof.
  intros Hin Hem. unfold patient_register. simpl.
  destruct (first _) eqn:Hfirst; [reflexivity|].
  apply first_filter_by_None with (r := p) in Hfirst; [|exact Hin].
  apply String.eqb_neq in Hfirst. contradiction.
Qed.

Lemma doctor_register_duplicate_email env fn ln em ph pw spec lic fee s d :
  In d (doctors s) -> Doctor.email d = em ->
  doctor_register env (doctor_fields fn ln em ph pw spec lic fee) s
  = (error "Email already exists" (http_status DuplicateIdentity), s).
Proof.
  intros Hin Hem. unfold doctor_register. simpl.
  destruct (first _) eqn:Hfirst; [reflexivity|].
  apply first_filter_by_None with (r := d) in Hfirst; [|exact Hin].
  apply String.eqb_neq in Hfirst. contradiction.
Qed.

(** With every key unused (the generated id included) the record is created
    and appended to its table. *)
Lemma patient_register_creates env fn ln em ph pw s :
  (forall p, In p (patients s) -> Patient.email p <> em /\ Patient.id p <> uuid4 env) ->
  let patient :=
    Patient.mk (uuid4 env) fn ln em ph (generate_password_hash (salt env) pw)
               None None None None in
  patient_register env (patient_fields fn ln em ph pw) s
  = ((JDict [("message", JStr "Patient registered successfully");
             ("access_token", JStr (create_access_token (uuid4 env)));
             ("patient", Patient.to_dict patient)], 201),
     set_patients s (patients s ++ [patient])%list).
Proof.
  intros Hfresh patient. unfold patient_register. simpl.
  destruct (first _) eqn:Hfirst.
  { apply first_filter_by_Some in Hfirst. destruct Hfirst as [Hin He].
    apply String.eqb_eq in He. destruct (Hfresh _ Hin). contradiction. }
  unfold add_commit.
  destruct (violates _ _ _) eqn:Hv; [|reflexivity].
  apply violates_true_iff in Hv. destruct Hv as (col & r' & Hcol & Hin & Heq).
  destruct (Hfresh _ Hin) as [He Hi].
  destruct Hcol as [<- | [<- | []]]; simpl in Heq; contradiction.
Qed.

Lemma doctor_register_creates env fn ln em ph pw spec lic fee s :
  (forall d, In d (doctors s) ->
     Doctor.email d <> em /\ Doctor.license_number d <> lic
     /\ Doctor.id d <> uuid4 env) ->
  let doctor :=
    Doctor.mk (uuid4 env) fn ln em ph (generate_password_hash (salt env) pw)
              spec lic (get_default fee 500%Q) 0 None 0%Q true in
  doctor_register env (doctor_fields fn ln em ph pw spec lic fee) s
  = ((JDict [("message", JStr "Doctor registered successfully");
             ("access_token", JStr (create_access_token (uuid4 env)));
             ("doctor", Doctor.to_dict doctor)], 201),
     set_doctors s (doctors s ++ [doctor])%list).
Proof.
  intros Hfresh doctor. unfold doctor_register. simpl.
  destruct (first _) eqn:Hfirst.
  { apply first_filter_by_Some in Hfirst. destruct Hfirst as [Hin He].
    apply String.eqb_eq in He. destruct (Hfresh _ Hin). contradiction. }
  unfold add_commit.
  destruct (violates _ _ _) eqn:Hv; [|reflexivity].
  apply violates_true_iff in Hv. destruct Hv as (col & r' & Hcol & Hin & Heq).
  destruct (Hfresh _ Hin) as (He & Hl & Hi).
  destruct Hcol as [<- | [<- | [<- | []]]]; simpl in Heq; contradiction.
Qed.

(** C5, where the code departs from it: a doctor registration whose email is
    new but whose license number an earlier doctor already has is not
    answered with the 400 of DuplicateIdentity.  The route checks the email
    only; the [unique=True] of [license_number] makes the commit raise, and
    the answer is 500 "Internal server error".  Nothing is stored. *)
Theorem doctor_register_duplicate_license env fn ln em ph pw spec lic fee s d :
  (forall d', In d' (doctors s) -> Doctor.email d' <> em) ->
  In d (doctors s) -> Doctor.license_number d = lic ->
  doctor_register env (doctor_fields fn ln em ph pw spec lic fee) s
  = (error "Internal server error" 500, s)
  /\ 500 <> http_status DuplicateIdentity.
Proof.
  intros Hem Hin Hlic. split; [|discriminate].
  unfold doctor_register. simpl.
  destruct (first _) eqn:Hfirst.
  { apply first_filter_by_Some in Hfirst. destruct Hfirst as [Hin' He].
    apply String.eqb_eq in He. destruct (Hem _ Hin' He). }
  unfold add_commit.
  destruct (violates _ _ _) eqn:Hv; [reflexivity|].
  assert (Hv' : violates [Doctor.id; Doctor.email; Doctor.license_number]
                  (Doctor.set_password
                     (Doctor.new (uuid4 env) fn ln em ph spec lic (get_default fee 500%Q))
                     (salt env) pw) (doctors s) = true).
  { apply violates_true_iff. exists Doctor.license_number, d.
    split; [right; right; left; reflexivity|]. split; [exact Hin | exact Hlic]. }
  congruence.
Qed.
End Registration.

(** The theorem above at the failing input: with doctor [D1] (license [L-1])
    registered, a second doctor with another email and license [L-1]
    registers. *)
Lemma doctor_register_duplicate_license_witness :
  doctor_register (E := toy_external) (env_of "D2")
    (doctor_data "wilson@ppth.org" "L-1") store_registered
  = (error "Internal server error" 500, store_registered).
Proof.
  refine (proj1 (doctor_register_duplicate_license (E := toy_external) (env_of "D2")
                   "Gregory" "House" "wilson@ppth.org" "555-0100" "vicodin"
                   "cardiology" "L-1" None store_registered
                   (Doctor.mk "D1" "Gregory" "House" "house@ppth.org" "555-0100"
                              "sha$vicodin" "cardiology" "L-1" 500 0 None 0 true)
                   _ _ _)).
  - intros d' [<- | []]. discriminate.
  - left. reflexivity.
  - reflexivity.
Defined.

(** ** Reviews (C8) *)

Lemma set_rating_average_id d r : Doctor.id (Doctor.set_rating_average d r) = Doctor.id d.
Proof. reflexivity. Qed.

Lemma ratings_of_app doctor_id tbl tbl' :
  ratings_of doctor_id (tbl ++ tbl')
  = (ratings_of doctor_id tbl ++ ratings_of doctor_id tbl')%list.
Proof.
  unfold ratings_of, filter_by. rewrite filter_app, map_app. reflexivity.
Qed.

Lemma ratings_of_one i patientId doctorId appointmentId rating comment :
  ratings_of doctorId [Review.mk i patientId doctorId appointmentId rating comment]
  = [rating].
Proof.
  unfold ratings_of, filter_by. cbn [filter Review.doctor_id].
  rewrite String.eqb_refl. reflexivity.
Qed.

(** What a successful [addReview] leaves behind: the review is recorded last
    and the doctor carries the double nearest to the mean of the ratings now
    recorded. *)
Lemma addReview_success env patientId doctorId appointmentId rating comment s s' :
  addReview env patientId doctorId appointmentId rating comment s = (Success, s') ->
  ratings_of doctorId (reviews s')
  = (ratings_of doctorId (reviews s) ++ [rating])%list
  /\ exists doctor,
       query_get Doctor.id (doctors s') doctorId = Some doctor
       /\ Doctor.rating_average doctor
          = to_double (mean (ratings_of doctorId (reviews s'))).
Proof.
  unfold addReview.
  destruct (query_get Patient.id (patients s) patientId); [|discriminate].
  destruct (query_get Doctor.id (doctors s) doctorId) as [d0|] eqn:Hd; [|discriminate].
  match goal with |- context [if ?b then _ else _] => destruct b end; [|discriminate].
  destruct (add_commit _ _ _) as [tbl|] eqn:Hc; [|discriminate].
  apply add_commit_Some in Hc. subst tbl.
  intros H. injection H as <-. simpl. split.
  - rewrite ratings_of_app, ratings_of_one. reflexivity.
  - rewrite query_get_update_where by (intros; apply set_rating_average_id).
    rewrite Hd. simpl. eexists. split; reflexivity.
Qed.

Lemma to_dict_rating_average d :
  dict_get "rating_average" (Doctor.to_dict d)
  = Some (JFloat (round2 (Doctor.rating_average d))).
Proof. reflexivity. Qed.

(** [round_half_even] is within one half of its argument. *)
Lemma round_half_even_near q :
  (Qabs (inject_Z (round_half_even q) - q) <= 1 # 2)%Q.
Proof.
  unfold round_half_even.
  pose proof (Qfloor_le q) as Hle. pose proof (Qlt_floor q) as Hlt.
  rewrite inject_Z_plus in Hlt. change (inject_Z 1) with 1%Q in Hlt.
  apply Qabs_Qle_condition.
  destruct (Qcompare_spec (q - inject_Z (Qfloor q)) (1 # 2)) as [He | Hl | Hg].
  - destruct (Z.even (Qfloor q)).
    + lra.
    + rewrite inject_Z_plus. change (inject_Z 1) with 1%Q. lra.
  - lra.
  - rewrite inject_Z_plus. change (inject_Z 1) with 1%Q. lra.
Qed.

(** What one request of [app.py] does to the doctor table: nothing, or one
    new doctor whose [rating_average] is the default. *)
Lemma handle_doctors_default {E : External} env r s :
  doctors (snd (handle env r s)) = doctors s
  \/ exists d, doctors (snd (handle env r s)) = (doctors s ++ [d])%list
               /\ Doctor.rating_average d = 0%Q.
Proof.
  route_cases r; simpl; auto.
  right. match goal with H : add_commit _ _ _ = Some _ |- _ =>
    apply add_commit_Some in H; subst end.
  eexists. split; reflexivity.
Qed.

Lemma handle_reviews {E : External} env r s :
  reviews (snd (handle env r s)) = reviews s.
Proof.
  route_cases r; reflexivity.
Qed.

(** The routes of [app.py] alone record no review and leave every doctor's
    [rating_average] at its default 0.0. *)
Lemma reachable_no_reviews {E : External} s :
  reachable s ->
  reviews s = [] /\ forall d, In d (doctors s) -> Doctor.rating_average d = 0%Q.
Proof.
  induction 1 as [|env r s Hs [IHr IHd]].
  - split; [reflexivity | intros d []].
  - split; [rewrite handle_reviews; exact IHr|].
    intros d Hin.
    destruct (handle_doctors_default env r s) as [Heq | (d' & Heq & Hd')];
      rewrite Heq in Hin.
    + apply IHd. exact Hin.
    + apply in_app_or in Hin. destruct Hin as [Hin | [<- | []]].
      * apply IHd. exact Hin.
      * exact Hd'.
Qed.

(** C8, on [addReview] as the specification describes it: after every
    successful call the reviewed doctor's [rating_average] is the arithmetic
    mean of all ratings recorded for that doctor, held as the nearest double,
    and the doctor's dictionary shows it rounded to 2 decimal places: a
    number of hundredths within half a hundredth of the stored value, ties
    to even (13/3 shows as 4.33, the double of 107/40 as 2.67, 0.125 as
    0.12 and 0.375 as 0.38); in particular, after three calls with ratings
    4, 5 and 3 for a doctor who had no review, the average is 4 and is shown
    as 4.0. *)
Theorem rating_average_is_mean :
  (forall env patientId doctorId appointmentId rating comment s s',
     addReview env patientId doctorId appointmentId rating comment s = (Success, s') ->
     exists doctor,
       query_get Doctor.id (doctors s') doctorId = Some doctor
       /\ ratings_of doctorId (reviews s')
          = (ratings_of doctorId (reviews s) ++ [rating])%list
       /\ Doctor.rating_average doctor
          = to_double (mean (ratings_of doctorId (reviews s')))
       /\ dict_get "rating_average" (Doctor.to_dict doctor)
          = Some (JFloat (round2 (to_double
                                    (mean (ratings_of doctorId (reviews s')))))))
  /\ (forall x, exists n : Z,
        round2 x = Qred (n # 100)
        /\ (Qabs (inject_Z n - to_double x * 100) <= 1 # 2)%Q)
  /\ (round2 (to_double (mean [5; 4; 4])) = 433 # 100
      /\ round2 (to_double (mean (repeat 3 27%nat ++ repeat 2 13%nat))) = 267 # 100
      /\ round2 (1 # 8) = 3 # 25
      /\ round2 (3 # 8) = 19 # 50)
  /\ (forall e1 e2 e3 p1 p2 p3 a1 a2 a3 c1 c2 c3 doctorId s s1 s2 s3,
        ratings_of doctorId (reviews s) = [] ->
        addReview e1 p1 doctorId a1 4 c1 s = (Success, s1) ->
        addReview e2 p2 doctorId a2 5 c2 s1 = (Success, s2) ->
        addReview e3 p3 doctorId a3 3 c3 s2 = (Success, s3) ->
        exists doctor,
          query_get Doctor.id (doctors s3) doctorId = Some doctor
          /\ (Doctor.rating_average doctor == 4)%Q
          /\ dict_get "rating_average" (Doctor.to_dict doctor) = Some (JFloat 4%Q)).
Proof.
  split; [|split; [|split]].
  - intros env patientId doctorId appointmentId rating comment s s' H.
    apply addReview_success in H. destruct H as (Hr & doctor & Hd & Havg).
    exists doctor. repeat split; try assumption.
    rewrite to_dict_rating_average, Havg. reflexivity.
  - intros x. exists (round_half_even (to_double x * 100)).
    split; [reflexivity | apply round_half_even_near].
  - repeat split; vm_compute; reflexivity.
  - intros e1 e2 e3 p1 p2 p3 a1 a2 a3 c1 c2 c3 doctorId s s1 s2 s3 H0 H1 H2 H3.
    apply addReview_success in H1, H2, H3.
    destruct H1 as (R1 & _), H2 as (R2 & _), H3 as (R3 & doctor & Hd & Havg).
    rewrite R3, R2, R1, H0 in Havg. cbn [app] in Havg.
    assert (Hfour : to_double (mean [4; 5; 3]) = 4%Q)
      by (vm_compute; reflexivity).
    rewrite Hfour in Havg.
    exists doctor. split; [exact Hd|]. split.
    + rewrite Havg. reflexivity.
    + rewrite to_dict_rating_average, Havg. vm_compute. reflexivity.
Qed.

(** The theorem above for three reviews of doctor [D1] by patient [P1]. *)
Lemma rating_average_is_mean_witness :
  ratings_of "D1" (reviews store_reviewed) = [4; 5; 3]
  /\ exists doctor,
       query_get Doctor.id (doctors store_reviewed) "D1" = Some doctor
       /\ (Doctor.rating_average doctor == 4)%Q
       /\ dict_get "rating_average" (Doctor.to_dict doctor) = Some (JFloat 4%Q).
Proof.
  split; [vm_compute; reflexivity|].
  refine (proj2 (proj2 (proj2 rating_average_is_mean))
            (env_of "R1") (env_of "R2") (env_of "R3") "P1" "P1" "P1" None None None
            None (Some "thorough") None "D1" store_registered
            store_reviewed1 store_reviewed2 store_reviewed
            _ _ _ _); vm_compute; reflexivity.
Defined.

(** * Further properties of the routes *)

(** ** What one request does to the store *)

Section Effects.
Context {E : External}.

Lemma handle_effect env r s :
  Effect env s (snd (fst (handle env r s))) (snd (handle env r s)).
Proof.
  route_cases r; simpl;
    first [ apply eff_none
          | eapply eff_patient; [|eassumption]; reflexivity
          | eapply eff_doctor; [..|eassumption]; reflexivity
          | eapply (eff_status _ _ _ _ CONFIRMED); [eassumption | left; reflexivity]
          | eapply (eff_status _ _ _ _ CANCELLED); [eassumption | right; reflexivity] ].
Qed.
End Effects.

Ltac effect_cases env r s :=
  let He := fresh "He" in
  pose proof (handle_effect env r s) as He;
  generalize dependent (snd (fst (handle env r s)));
  generalize dependent (snd (handle env r s));
  intros ? ? He; destruct He;
  repeat match goal with
         | H : add_commit _ _ _ = Some ?tbl |- _ =>
             is_var tbl; pose proof (add_commit_Some _ _ _ _ H); subst tbl
         end.

Section StoreInvariants.
Context {E : External}.

Lemma is_read_unchanged env r s : is_read r = true -> snd (handle env r s) = s.
Proof.
  destruct r; try discriminate; intros _; simpl; unfold_routes;
    repeat break_match; reflexivity.
Qed.

(** X1: a request changes the store only if it is not a GET or a login and
    is answered 200 or 201; every other answer leaves the store exactly as it
    was. *)
Theorem store_changes_only_on_success env r s :
  snd (handle env r s) <> s ->
  is_read r = false
  /\ (snd (fst (handle env r s)) = 200 \/ snd (fst (handle env r s)) = 201).
Proof.
  intros Hch. split.
  - destruct (is_read r) eqn:Hr; [|reflexivity].
    exfalso. apply Hch. apply is_read_unchanged. exact Hr.
  - revert Hch. effect_cases env r s; intros Hch; auto.
    exfalso. apply Hch. reflexivity.
Qed.

(** X2: no request removes or alters a patient, a doctor or a time slot:
    each of the three tables after a request is the table before it with the
    new rows appended, and one request appends at most one row in all. *)
Theorem rows_only_appended env r s :
  exists lp ld lt,
    patients (snd (handle env r s)) = (patients s ++ lp)%list
    /\ doctors (snd (handle env r s)) = (doctors s ++ ld)%list
    /\ time_slots (snd (handle env r s)) = (time_slots s ++ lt)%list
    /\ (length lp + length ld + length lt <= 1)%nat.
Proof.
  rewrite handle_time_slots.
  effect_cases env r s; simpl.
  - exists [], [], []. rewrite !app_nil_r. simpl. repeat split; lia.
  - exists [p], [], []. rewrite !app_nil_r. simpl. repeat split; lia.
  - exists [], [d], []. rewrite !app_nil_r. simpl. repeat split; lia.
  - exists [], [], []. rewrite !app_nil_r. simpl. repeat split; lia.
Qed.

Lemma set_status_same a : Appointment.set_status a (Appointment.status a) = a.
Proof. destruct a. reflexivity. Qed.

Lemma update_where_ids {A : Type} (pk : A -> ident) i f (tbl : list A) :
  (forall r, pk (f r) = pk r) -> map pk (update_where pk i f tbl) = map pk tbl.
Proof.
  intros Hpk. unfold update_where. rewrite map_map. apply map_ext.
  intros r. destruct (pk r =? i); [apply Hpk | reflexivity].
Qed.

Lemma update_where_In {A : Type} (pk : A -> ident) i f (tbl : list A) r' :
  In r' (update_where pk i f tbl) ->
  exists r, In r tbl /\ (r' = r \/ (pk r = i /\ r' = f r)).
Proof.
  unfold update_where. intros H. apply in_map_iff in H.
  destruct H as (r & Heq & Hin). exists r. split; [exact Hin|].
  destruct (pk r =? i) eqn:Hi; [|left; congruence].
  apply String.eqb_eq in Hi. right. split; congruence.
Qed.

Lemma handle_appointments env r s :
  appointments (snd (handle env r s)) = appointments s
  \/ exists aid st,
       (st = CONFIRMED \/ st = CANCELLED)
       /\ appointments (snd (handle env r s))
          = update_where Appointment.id aid
              (fun a => Appointment.set_status a (value st)) (appointments s).
Proof.
  effect_cases env r s; simpl; eauto.
Qed.

(** X3: no request adds or removes an appointment, or changes the id, the
    patient, the doctor, the date, the time, the notes or the recommendation
    of one: after any request the list of appointment ids is what it was, and
    every appointment is still there with those columns unchanged and with
    the status it had or with CONFIRMED or CANCELLED. *)
Theorem appointments_keep_columns env r s :
  map Appointment.id (appointments (snd (handle env r s)))
  = map Appointment.id (appointments s)
  /\ forall a, In a (appointments s) ->
       exists a',
         In a' (appointments (snd (handle env r s)))
         /\ Appointment.id a' = Appointment.id a
         /\ Appointment.patient_id a' = Appointment.patient_id a
         /\ Appointment.doctor_id a' = Appointment.doctor_id a
         /\ Appointment.appointment_date a' = Appointment.appointment_date a
         /\ Appointment.appointment_time a' = Appointment.appointment_time a
         /\ Appointment.consultation_notes a' = Appointment.consultation_notes a
         /\ Appointment.ai_recommendation a' = Appointment.ai_recommendation a
         /\ (Appointment.status a' = Appointment.status a
             \/ Appointment.status a' = value CONFIRMED
             \/ Appointment.status a' = value CANCELLED).
Proof.
  destruct (handle_appointments env r s) as [-> | (aid & st & Hst & ->)].
  - split; [reflexivity|]. intros a Hin. exists a. repeat split; auto.
  - split; [apply update_where_ids; intros; reflexivity|].
    intros a Hin. unfold update_where.
    destruct (Appointment.id a =? aid) eqn:Hid.
    + exists (Appointment.set_status a (value st)). split.
      * apply in_map_iff. exists a. rewrite Hid. split; [reflexivity | exact Hin].
      * simpl. repeat split; auto. destruct Hst as [-> | ->]; auto.
    + exists a. split.
      * apply in_map_iff. exists a. rewrite Hid. split; [reflexivity | exact Hin].
      * repeat split; auto.
Qed.

Lemma reachable_no_rows s :
  reachable s -> appointments s = [] /\ reviews s = [].
Proof.
  induction 1 as [|env r s Hs [IHa IHr]]; [split; reflexivity|].
  split; [|rewrite handle_reviews; exact IHr].
  destruct (handle_appointments env r s) as [-> | (aid & st & _ & ->)];
    [exact IHa | rewrite IHa; reflexivity].
Qed.

(** X4: on the routes alone the appointment table stays empty.  In every
    store reachable from an empty database there is no appointment and no
    review, so a GET of an appointment is answered 404, a cancel or a confirm
    by a caller whose token verifies is answered 404, and the listing of any
    patient's appointments is empty. *)
Theorem reachable_no_appointments s :
  reachable s ->
  appointments s = [] /\ reviews s = []
  /\ (forall aid, get_appointment aid s = (error "Appointment not found" 404, s))
  /\ (forall token who aid, decode_token token = Some who ->
        cancel_appointment (Some token) aid s
        = (error "Appointment not found" 404, s)
        /\ confirm_appointment (Some token) aid s
           = (error "Appointment not found" 404, s))
  /\ (forall token who patient_id status, decode_token token = Some who ->
        get_patient_appointments (Some token) patient_id status s
        = ((JDict [("appointments", JList []); ("count", JInt 0)], 200), s)).
Proof.
  intros Hs. destruct (reachable_no_rows s Hs) as [Ha Hr].
  split; [exact Ha | split; [exact Hr|]]. split; [|split].
  - intros aid. unfold get_appointment. rewrite Ha. reflexivity.
  - intros token who aid Htok. unfold cancel_appointment, confirm_appointment.
    rewrite !(jwt_required_valid _ _ _ _ Htok), Ha. split; reflexivity.
  - intros token who patient_id status Htok. unfold get_patient_appointments.
    rewrite (jwt_required_valid _ _ _ _ Htok), Ha.
    destruct (truthy status); reflexivity.
Qed.
End StoreInvariants.

Section Keys.
Context {E : External}.

Lemma query_get_app_Some {A : Type} (pk : A -> ident) tbl l i r :
  query_get pk tbl i = Some r -> query_get pk (tbl ++ l) i = Some r.
Proof.
  unfold query_get. induction tbl as [|x tbl IH]; simpl; [discriminate|].
  destruct (pk x =? i); [trivial | exact IH].
Qed.

Lemma query_get_app_new {A : Type} (pk : A -> ident) tbl r :
  query_get pk tbl (pk r) = None -> query_get pk (tbl ++ [r]) (pk r) = Some r.
Proof.
  unfold query_get. induction tbl as [|x tbl IH]; simpl.
  - rewrite String.eqb_refl. reflexivity.
  - destruct (pk x =? pk r); [discriminate | exact IH].
Qed.

(** X5: in every reachable store primary keys are unique in each of the
    four tables the routes write, emails are unique among patients and among
    doctors, and license numbers are unique among doctors. *)
Theorem reachable_keys_unique s :
  reachable s ->
  NoDup (map Patient.id (patients s)) /\ NoDup (map Patient.email (patients s))
  /\ NoDup (map Doctor.id (doctors s)) /\ NoDup (map Doctor.email (doctors s))
  /\ NoDup (map Doctor.license_number (doctors s))
  /\ NoDup (map TimeSlot.id (time_slots s))
  /\ NoDup (map Appointment.id (appointments s)).
Proof.
  intros Hs.
  destruct (reachable_unique s Hs) as (H1 & H2 & H3 & H4 & H5).
  repeat (split; [assumption|]). clear H1 H2 H3 H4 H5.
  destruct (reachable_no_rows s Hs) as [Ha _].
  rewrite (reachable_no_slots s Hs), Ha. split; constructor.
Qed.

Lemma handle_references env r s :
  (forall a, In a (appointments s) ->
     (exists p, query_get Patient.id (patients s) (Appointment.patient_id a) = Some p)
     /\ exists d, query_get Doctor.id (doctors s) (Appointment.doctor_id a) = Some d)
  /\ (forall t, In t (time_slots s) ->
        exists d, query_get Doctor.id (doctors s) (TimeSlot.doctor_id t) = Some d) ->
  (forall a, In a (appointments (snd (handle env r s))) ->
     (exists p, query_get Patient.id (patients (snd (handle env r s)))
                  (Appointment.patient_id a) = Some p)
     /\ exists d, query_get Doctor.id (doctors (snd (handle env r s)))
                    (Appointment.doctor_id a) = Some d)
  /\ (forall t, In t (time_slots (snd (handle env r s))) ->
        exists d, query_get Doctor.id (doctors (snd (handle env r s)))
                    (TimeSlot.doctor_id t) = Some d).
Proof.
  intros [IHa IHt].
  effect_cases env r s; simpl; try (split; assumption).
  - split; [|exact IHt]. intros a Hin.
    destruct (IHa a Hin) as [[p0 Hp] Hd]. split; [|exact Hd].
    exists p0. apply query_get_app_Some. exact Hp.
  - split.
    + intros a Hin. destruct (IHa a Hin) as [Hp [d0 Hd]]. split; [exact Hp|].
      exists d0. apply query_get_app_Some. exact Hd.
    + intros t Hin. destruct (IHt t Hin) as [d0 Hd].
      exists d0. apply query_get_app_Some. exact Hd.
  - split; [|exact IHt]. intros a0 Hin.
    unfold update_where in Hin. apply in_map_iff in Hin.
    destruct Hin as (a1 & <- & Hin).
    destruct (Appointment.id a1 =? aid); simpl; apply IHa; exact Hin.
Qed.

(** X6: no sequence of requests breaks a reference.  If in a store the
    patient and the doctor of every appointment, and the doctor of every time
    slot, are rows of the patient and doctor tables, then the same holds
    after any sequence of requests served from that store. *)
Theorem references_preserved trace s :
  (forall a, In a (appointments s) ->
     (exists p, query_get Patient.id (patients s) (Appointment.patient_id a) = Some p)
     /\ exists d, query_get Doctor.id (doctors s) (Appointment.doctor_id a) = Some d)
  /\ (forall t, In t (time_slots s) ->
        exists d, query_get Doctor.id (doctors s) (TimeSlot.doctor_id t) = Some d) ->
  (forall a, In a (appointments (run trace s)) ->
     (exists p, query_get Patient.id (patients (run trace s))
                  (Appointment.patient_id a) = Some p)
     /\ exists d, query_get Doctor.id (doctors (run trace s))
                    (Appointment.doctor_id a) = Some d)
  /\ (forall t, In t (time_slots (run trace s)) ->
        exists d, query_get Doctor.id (doctors (run trace s))
                    (TimeSlot.doctor_id t) = Some d).
Proof.
  revert s. induction trace as [|[env r] trace IH]; intros s Hrefs; [exact Hrefs|].
  simpl. apply IH. apply handle_references. exact Hrefs.
Qed.
End Keys.

(** X1 on the registration of a second doctor: the store changes, and the
    answer is 201. *)
Lemma store_changes_only_on_success_witness :
  snd (fst (handle (E := toy_external) (env_of "D2")
              (DoctorRegister (doctor_data "wilson@ppth.org" "L-2"))
              store_registered))
  = 200
  \/ snd (fst (handle (E := toy_external) (env_of "D2")
                 (DoctorRegister (doctor_data "wilson@ppth.org" "L-2"))
                 store_registered))
     = 201.
Proof.
  refine (proj2 (store_changes_only_on_success (E := toy_external) (env_of "D2")
                   (DoctorRegister (doctor_data "wilson@ppth.org" "L-2"))
                   store_registered _)).
  intros H. apply (f_equal (fun s => length (doctors s))) in H.
  vm_compute in H. discriminate H.
Defined.

(** X4 on the store where [D1] and [P1] are registered. *)
Lemma reachable_no_appointments_witness :
  get_appointment "A1" store_registered
  = (error "Appointment not found" 404, store_registered).
Proof.
  refine (proj1 (proj2 (proj2 (reachable_no_appointments (E := toy_external)
                                 store_registered _))) "A1").
  apply reachable_run. constructor.
Defined.

(** X5 on the store where [D1] and [P1] are registered. *)
Lemma reachable_keys_unique_witness :
  NoDup (map Doctor.email (doctors store_registered)).
Proof.
  refine (proj1 (proj2 (proj2 (proj2
            (reachable_keys_unique (E := toy_external) store_registered _))))).
  apply reachable_run. constructor.
Defined.

(** X6 on the store with the cancelled appointment [A1], across the
    registration of a second doctor and a confirm of [A1]. *)
Lemma references_preserved_witness :
  exists p,
    query_get Patient.id
      (patients
         (run (E := toy_external)
            [(env_of "D2", DoctorRegister (doctor_data "wilson@ppth.org" "L-2"));
             (env_of "na", ConfirmAppointment (Some "jwt.D1") "A1")]
            store_cancelled))
      (Appointment.patient_id (appointment_A1 CONFIRMED)) = Some p.
Proof.
  refine (proj1 (proj1 (references_preserved (E := toy_external)
                          [(env_of "D2", DoctorRegister (doctor_data "wilson@ppth.org" "L-2"));
                           (env_of "na", ConfirmAppointment (Some "jwt.D1") "A1")]
                          store_cancelled _) (appointment_A1 CONFIRMED) _)).
  - split.
    + intros a0 [<- | []]. split; eexists; vm_compute; reflexivity.
    + intros t [].
  - vm_compute. left. reflexivity.
Defined.

(** ** Registration and login, end to end *)

Section Accounts.
Context {E : External}.

Lemma patient_register_cases env fn ln em ph pw s :
  patient_register env (patient_fields fn ln em ph pw) s
  = let patient :=
      Patient.mk (uuid4 env) fn ln em ph (generate_password_hash (salt env) pw)
                 None None None None in
    match patient_by_email s em with
    | Some _ => (error "Email already exists" 400, s)
    | None =>
        if violates [Patient.id; Patient.email] patient (patients s)
        then (internal_error, s)
        else ((JDict [("message", JStr "Patient registered successfully");
                      ("access_token", JStr (create_access_token (uuid4 env)));
                      ("patient", Patient.to_dict patient)], 201),
              set_patients s (patients s ++ [patient])%list)
    end.
Proof.
  unfold patient_register, patient_by_email, add_commit.
  cbn [patient_fields pr_first_name pr_last_name pr_email pr_phone pr_password
       dr_first_name dr_last_name dr_email dr_phone dr_password
       dr_specialization dr_license_number dr_consultation_fee].
  destruct (first _); [reflexivity|].
  destruct (violates _ _ _); reflexivity.
Qed.

Lemma doctor_register_cases env fn ln em ph pw spec lic fee s :
  doctor_register env (doctor_fields fn ln em ph pw spec lic fee) s
  = let doctor :=
      Doctor.mk (uuid4 env) fn ln em ph (generate_password_hash (salt env) pw)
                spec lic (get_default fee 500%Q) 0 None 0%Q true in
    match doctor_by_email s em with
    | Some _ => (error "Email already exists" 400, s)
    | None =>
        if violates [Doctor.id; Doctor.email; Doctor.license_number] doctor (doctors s)
        then (internal_error, s)
        else ((JDict [("message", JStr "Doctor registered successfully");
                      ("access_token", JStr (create_access_token (uuid4 env)));
                      ("doctor", Doctor.to_dict doctor)], 201),
              set_doctors s (doctors s ++ [doctor])%list)
    end.
Proof.
  unfold doctor_register, doctor_by_email, add_commit.
  cbn [doctor_fields pr_first_name pr_last_name pr_email pr_phone pr_password
       dr_first_name dr_last_name dr_email dr_phone dr_password
       dr_specialization dr_license_number dr_consultation_fee].
  destruct (first _); [reflexivity|].
  destruct (violates _ _ _); reflexivity.
Qed.

Lemma violates_false {A : Type} (uniques : list (A -> string)) r tbl :
  violates uniques r tbl = false ->
  forall col r', In col uniques -> In r' tbl -> col r' <> col r.
Proof.
  intros Hv col r' Hcol Hin Heq.
  assert (Ht : violates uniques r tbl = true)
    by (apply violates_true_iff; exists col, r'; auto).
  congruence.
Qed.

(** X7: a patient registration whose five required keys all carry strings
    has exactly three outcomes (a body with a JSON null or a number under a
    required key is not of this form).  It is answered 400 "Email already exists" exactly when a
    patient has the email; 500 exactly when no patient has the email but one
    has the generated id; and 201 exactly when no patient has either.  The
    first two leave the store unchanged. *)
Theorem patient_register_outcome env fn ln em ph pw s :
  ((exists p, In p (patients s) /\ Patient.email p = em)
   <-> patient_register env (patient_fields fn ln em ph pw) s
       = (error "Email already exists" 400, s))
  /\ ((forall p, In p (patients s) -> Patient.email p <> em)
      /\ (exists p, In p (patients s) /\ Patient.id p = uuid4 env)
      <-> patient_register env (patient_fields fn ln em ph pw) s
          = (internal_error, s))
  /\ ((forall p, In p (patients s) ->
         Patient.email p <> em /\ Patient.id p <> uuid4 env)
      <-> snd (fst (patient_register env (patient_fields fn ln em ph pw) s)) = 201).
Proof.
  rewrite patient_register_cases. cbv zeta.
  destruct (patient_by_email s em) as [p0|] eqn:Hfirst.
  - apply first_filter_by_Some in Hfirst. destruct Hfirst as [Hin He].
    apply String.eqb_eq in He.
    split; [|split].
    + split; [reflexivity | eauto].
    + split; [intros [Hno _]; destruct (Hno p0 Hin He) | discriminate].
    + split; [intros H; destruct (H p0 Hin) as [Hno _]; contradiction | discriminate].
  - pose proof (proj1 (patient_by_email_None s em) Hfirst) as Hnone.
    clear Hfirst. rename Hnone into Hfirst.
    destruct (violates _ _ _) eqn:Hv.
    + apply violates_true_iff in Hv.
      destruct Hv as (col & r' & Hcol & Hin & Heq).
      assert (Hid : Patient.id r' = uuid4 env).
      { destruct Hcol as [<- | [<- | []]]; [exact Heq|].
        destruct (Hfirst r' Hin Heq). }
      split; [|split].
      * split; [intros (p & Hp & He); destruct (Hfirst p Hp He) | discriminate].
      * split; [reflexivity | eauto].
      * split; [intros H; destruct (H r' Hin) as [_ Hno]; contradiction | discriminate].
    + pose proof (violates_false _ _ _ Hv) as Hno.
      split; [|split].
      * split; [intros (p & Hp & He); destruct (Hfirst p Hp He) | discriminate].
      * split; [|discriminate]. intros [_ (p & Hp & Hid)].
        destruct (Hno Patient.id p (or_introl eq_refl) Hp Hid).
      * split; [reflexivity|]. intros _ p Hp. split; [apply Hfirst; exact Hp|].
        apply (Hno Patient.id p (or_introl eq_refl) Hp).
Qed.

(** X8: a doctor registration whose seven required keys all carry strings
    has exactly three outcomes (a body with a JSON null or a number under a
    required key is not of this form).  It is answered 400 "Email already exists" exactly when a
    doctor has the email; 500 exactly when no doctor has the email but one
    has the license number or the generated id; and 201 exactly when no
    doctor has any of the three.  The first two leave the store unchanged. *)
Theorem doctor_register_outcome env fn ln em ph pw spec lic fee s :
  ((exists d, In d (doctors s) /\ Doctor.email d = em)
   <-> doctor_register env (doctor_fields fn ln em ph pw spec lic fee) s
       = (error "Email already exists" 400, s))
  /\ ((forall d, In d (doctors s) -> Doctor.email d <> em)
      /\ (exists d, In d (doctors s)
                    /\ (Doctor.license_number d = lic \/ Doctor.id d = uuid4 env))
      <-> doctor_register env (doctor_fields fn ln em ph pw spec lic fee) s
          = (internal_error, s))
  /\ ((forall d, In d (doctors s) ->
         Doctor.email d <> em /\ Doctor.license_number d <> lic
         /\ Doctor.id d <> uuid4 env)
      <-> snd (fst (doctor_register env
                      (doctor_fields fn ln em ph pw spec lic fee) s)) = 201).
Proof.
  rewrite doctor_register_cases. cbv zeta.
  destruct (doctor_by_email s em) as [d0|] eqn:Hfirst.
  - apply first_filter_by_Some in Hfirst. destruct Hfirst as [Hin He].
    apply String.eqb_eq in He.
    split; [|split].
    + split; [reflexivity | eauto].
    + split; [intros [Hno _]; destruct (Hno d0 Hin He) | discriminate].
    + split; [intros H; destruct (H d0 Hin) as [Hno _]; contradiction | discriminate].
  - pose proof (proj1 (doctor_by_email_None s em) Hfirst) as Hnone.
    clear Hfirst. rename Hnone into Hfirst.
    destruct (violates _ _ _) eqn:Hv.
    + apply violates_true_iff in Hv.
      destruct Hv as (col & r' & Hcol & Hin & Heq).
      assert (Hkey : Doctor.license_number r' = lic \/ Doctor.id r' = uuid4 env).
      { destruct Hcol as [<- | [<- | [<- | []]]];
          [right; exact Heq | destruct (Hfirst r' Hin Heq) | left; exact Heq]. }
      split; [|split].
      * split; [intros (d & Hd & He); destruct (Hfirst d Hd He) | discriminate].
      * split; [reflexivity | eauto].
      * split; [|discriminate]. intros H. destruct (H r' Hin) as (_ & Hl & Hi).
        destruct Hkey; contradiction.
    + pose proof (violates_false _ _ _ Hv) as Hno.
      split; [|split].
      * split; [intros (d & Hd & He); destruct (Hfirst d Hd He) | discriminate].
      * split; [|discriminate]. intros [_ (d & Hd & [Hl | Hi])].
        -- destruct (Hno Doctor.license_number d
                       (or_intror (or_intror (or_introl eq_refl))) Hd Hl).
        -- destruct (Hno Doctor.id d (or_introl eq_refl) Hd Hi).
      * split; [reflexivity|]. intros _ d Hd. repeat split.
        -- apply Hfirst. exact Hd.
        -- apply (Hno Doctor.license_number d
                    (or_intror (or_intror (or_introl eq_refl))) Hd).
        -- apply (Hno Doctor.id d (or_introl eq_refl) Hd).
Qed.
End Accounts.

Section RegisterThenLogin.
Context {E : External}.

Lemma first_filter_by_app_new {A : Type} (f : A -> bool) tbl r :
  first (filter_by f tbl) = None -> f r = true ->
  first (filter_by f (tbl ++ [r])) = Some r.
Proof.
  unfold filter_by. intros Hnone Hr. rewrite filter_app.
  destruct (filter f tbl); [|discriminate]. simpl. rewrite Hr. reflexivity.
Qed.

Lemma patient_register_201 env fn ln em ph pw s :
  snd (fst (patient_register env (patient_fields fn ln em ph pw) s)) = 201 ->
  let patient :=
    Patient.mk (uuid4 env) fn ln em ph (generate_password_hash (salt env) pw)
               None None None None in
  patient_by_email s em = None
  /\ patient_register env (patient_fields fn ln em ph pw) s
     = ((JDict [("message", JStr "Patient registered successfully");
                ("access_token", JStr (create_access_token (uuid4 env)));
                ("patient", Patient.to_dict patient)], 201),
        set_patients s (patients s ++ [patient])%list).
Proof.
  rewrite patient_register_cases. cbv zeta.
  destruct (patient_by_email s em); [discriminate|].
  destruct (violates _ _ _); [discriminate|]. split; reflexivity.
Qed.

Lemma doctor_register_201 env fn ln em ph pw spec lic fee s :
  snd (fst (doctor_register env (doctor_fields fn ln em ph pw spec lic fee) s)) = 201 ->
  let doctor :=
    Doctor.mk (uuid4 env) fn ln em ph (generate_password_hash (salt env) pw)
              spec lic (get_default fee 500%Q) 0 None 0%Q true in
  doctor_by_email s em = None
  /\ query_get Doctor.id (doctors s) (uuid4 env) = None
  /\ doctor_register env (doctor_fields fn ln em ph pw spec lic fee) s
     = ((JDict [("message", JStr "Doctor registered successfully");
                ("access_token", JStr (create_access_token (uuid4 env)));
                ("doctor", Doctor.to_dict doctor)], 201),
        set_doctors s (doctors s ++ [doctor])%list).
Proof.
  rewrite doctor_register_cases. cbv zeta.
  destruct (doctor_by_email s em); [discriminate|].
  destruct (violates _ _ _) eqn:Hv; [discriminate|]. intros _.
  split; [reflexivity | split; [|reflexivity]].
  apply query_get_None. intros d Hd.
  apply (violates_false _ _ _ Hv Doctor.id d (or_introl eq_refl) Hd).
Qed.

(** X9: registration and login compose.  If the password hashing verifies
    the password it hashed, then after a registration answered 201 a login
    with the same email and password is answered 200 with the same token
    identity and the same dictionary as the registration, and a login with a
    password the digest does not verify is answered 401.  Patients and
    doctors alike. *)
Theorem register_then_login env pw :
  check_password_hash (generate_password_hash (salt env) pw) pw = true ->
  (forall fn ln em ph s,
     snd (fst (patient_register env (patient_fields fn ln em ph pw) s)) = 201 ->
     let s' := snd (patient_register env (patient_fields fn ln em ph pw) s) in
     (exists dict,
        dict_get "patient"
          (fst (fst (patient_register env (patient_fields fn ln em ph pw) s)))
        = Some dict
        /\ patient_login (login_data em pw) s'
           = ((JDict [("access_token", JStr (create_access_token (uuid4 env)));
                      ("patient", dict)], 200), s'))
     /\ forall pw',
          check_password_hash (generate_password_hash (salt env) pw) pw' = false ->
          patient_login (login_data em pw') s'
          = (error "Invalid credentials" 401, s'))
  /\ (forall fn ln em ph spec lic fee s,
        snd (fst (doctor_register env
                    (doctor_fields fn ln em ph pw spec lic fee) s)) = 201 ->
        let s' := snd (doctor_register env
                         (doctor_fields fn ln em ph pw spec lic fee) s) in
        (exists dict,
           dict_get "doctor"
             (fst (fst (doctor_register env
                          (doctor_fields fn ln em ph pw spec lic fee) s)))
           = Some dict
           /\ doctor_login (login_data em pw) s'
              = ((JDict [("access_token", JStr (create_access_token (uuid4 env)));
                         ("doctor", dict)], 200), s'))
        /\ forall pw',
             check_password_hash (generate_password_hash (salt env) pw) pw' = false ->
             doctor_login (login_data em pw') s'
             = (error "Invalid credentials" 401, s')).
Proof.
  intros Hhash. split.
  - intros fn ln em ph s H201.
    destruct (patient_register_201 _ _ _ _ _ _ _ H201) as [Hnone Hreg].
    rewrite Hreg. cbv zeta. simpl fst. simpl snd.
    assert (Hfirst : patient_by_email
                       (set_patients s
                          (patients s ++ [Patient.mk (uuid4 env) fn ln em ph
                             (generate_password_hash (salt env) pw)
                             None None None None])%list) em
                     = Some (Patient.mk (uuid4 env) fn ln em ph
                               (generate_password_hash (salt env) pw)
                               None None None None)).
    { unfold patient_by_email. simpl patients.
      apply first_filter_by_app_new; [exact Hnone|]. simpl. apply String.eqb_refl. }
    split.
    + eexists. split; [reflexivity|].
      rewrite patient_login_cases, Hfirst. unfold Patient.check_password.
      simpl Patient.password_hash. rewrite Hhash. reflexivity.
    + intros pw' Hbad. rewrite patient_login_cases, Hfirst.
      unfold Patient.check_password. simpl Patient.password_hash.
      rewrite Hbad. reflexivity.
  - intros fn ln em ph spec lic fee s H201.
    destruct (doctor_register_201 _ _ _ _ _ _ _ _ _ _ H201) as (Hnone & _ & Hreg).
    rewrite Hreg. cbv zeta. simpl fst. simpl snd.
    assert (Hfirst : doctor_by_email
                       (set_doctors s
                          (doctors s ++ [Doctor.mk (uuid4 env) fn ln em ph
                             (generate_password_hash (salt env) pw)
                             spec lic (get_default fee 500%Q) 0 None 0%Q true])%list) em
                     = Some (Doctor.mk (uuid4 env) fn ln em ph
                               (generate_password_hash (salt env) pw)
                               spec lic (get_default fee 500%Q) 0 None 0%Q true)).
    { unfold doctor_by_email. simpl doctors.
      apply first_filter_by_app_new; [exact Hnone|]. simpl. apply String.eqb_refl. }
    split.
    + eexists. split; [reflexivity|].
      rewrite doctor_login_cases, Hfirst. unfold Doctor.check_password.
      simpl Doctor.password_hash. rewrite Hhash. reflexivity.
    + intros pw' Hbad. rewrite doctor_login_cases, Hfirst.
      unfold Doctor.check_password. simpl Doctor.password_hash.
      rewrite Hbad. reflexivity.
Qed.

(** X10: a login body without the [password] key is answered 401 "Invalid
    credentials" exactly when no record has the email, and 500 exactly when a
    record has it: the lookup of the missing key is reached only after the
    email is found.  A body without the [email] key is always answered 500.
    Patients and doctors alike; the store is never changed. *)
Theorem login_missing_password em pw s :
  ((forall p, In p (patients s) -> Patient.email p <> em)
   <-> patient_login {| lg_email := Some em; lg_password := None |} s
       = (error "Invalid credentials" 401, s))
  /\ ((exists p, In p (patients s) /\ Patient.email p = em)
      <-> patient_login {| lg_email := Some em; lg_password := None |} s
          = (internal_error, s))
  /\ patient_login {| lg_email := None; lg_password := pw |} s = (internal_error, s)
  /\ ((forall d, In d (doctors s) -> Doctor.email d <> em)
      <-> doctor_login {| lg_email := Some em; lg_password := None |} s
          = (error "Invalid credentials" 401, s))
  /\ ((exists d, In d (doctors s) /\ Doctor.email d = em)
      <-> doctor_login {| lg_email := Some em; lg_password := None |} s
          = (internal_error, s))
  /\ doctor_login {| lg_email := None; lg_password := pw |} s = (internal_error, s).
Proof.
  unfold patient_login, doctor_login. simpl.
  fold (patient_by_email s em). fold (doctor_by_email s em).
  split; [|split; [|split; [reflexivity|split; [|split; [|reflexivity]]]]].
  - destruct (patient_by_email s em) as [p|] eqn:Hp.
    + apply first_filter_by_Some in Hp. destruct Hp as [Hin He].
      apply String.eqb_eq in He.
      split; [intros H; destruct (H p Hin He) | discriminate].
    + split; [reflexivity|]. intros _. apply patient_by_email_None. exact Hp.
  - destruct (patient_by_email s em) as [p|] eqn:Hp.
    + apply first_filter_by_Some in Hp. destruct Hp as [Hin He].
      apply String.eqb_eq in He. split; [reflexivity | eauto].
    + pose proof (proj1 (patient_by_email_None s em) Hp) as Hno.
      split; [intros (p & Hin & He); destruct (Hno p Hin He) | discriminate].
  - destruct (doctor_by_email s em) as [d|] eqn:Hd.
    + apply first_filter_by_Some in Hd. destruct Hd as [Hin He].
      apply String.eqb_eq in He.
      split; [intros H; destruct (H d Hin He) | discriminate].
    + split; [reflexivity|]. intros _. apply doctor_by_email_None. exact Hd.
  - destruct (doctor_by_email s em) as [d|] eqn:Hd.
    + apply first_filter_by_Some in Hd. destruct Hd as [Hin He].
      apply String.eqb_eq in He. split; [reflexivity | eauto].
    + pose proof (proj1 (doctor_by_email_None s em) Hd) as Hno.
      split; [intros (d & Hin & He); destruct (Hno d Hin He) | discriminate].
Qed.
End RegisterThenLogin.

(** X9 with the toy digests, for a first patient. *)
Lemma register_then_login_witness :
  snd (fst (patient_login (E := toy_external) (login_data "ada@example.org" "engine")
              (snd (patient_register (E := toy_external) (env_of "P1")
                      (patient_data "ada@example.org") empty_store)))) = 200.
Proof.
  destruct (proj1 (register_then_login (E := toy_external) (env_of "P1") "engine"
                     eq_refl)
                  "Ada" "Lovelace" "ada@example.org" "555-0199" empty_store eq_refl)
    as [(dict & _ & Hlogin) _].
  cbv zeta in Hlogin.
  exact (f_equal (fun x => snd (fst x)) Hlogin).
Defined.

(** ** Publishing slots and booking, end to end *)

Section SlotsAndBookings.
Context {E : External}.

(** X11: add-slots never stores a slot.  For a caller whose token verifies,
    whoever it is, the request is answered 404 when the doctor of the path is
    unknown, whatever the body, and 500 "Internal server error" when the
    doctor exists, whatever the body: a missing [date], [start_time] or
    [end_time] raises, and the three strings of a complete body are what the
    commit cannot bind to the Date and Time columns.  Whoever calls and
    whatever the answer, the store is unchanged. *)
Theorem add_time_slots_never_stores env token who doctor_id data s :
  decode_token token = Some who ->
  (query_get Doctor.id (doctors s) doctor_id = None ->
   add_time_slots env (Some token) doctor_id data s
   = (error "Doctor not found" 404, s))
  /\ (forall d, query_get Doctor.id (doctors s) doctor_id = Some d ->
        add_time_slots env (Some token) doctor_id data s
        = (error "Internal server error" 500, s))
  /\ (forall auth' doctor_id' data',
        snd (add_time_slots env auth' doctor_id' data' s) = s).
Proof.
  intros Htok. split; [|split].
  - unfold add_time_slots. rewrite (jwt_required_valid _ _ _ _ Htok).
    intros ->. reflexivity.
  - intros d Hd. unfold add_time_slots.
    rewrite (jwt_required_valid _ _ _ _ Htok), Hd. cbn [bind_date bind_time].
    destruct (as_date data), (as_start_time data), (as_end_time data);
      reflexivity.
  - intros auth' doctor_id' data'. unfold add_time_slots, jwt_required.
    cbn [bind_date bind_time]. repeat break_match; reflexivity.
Qed.

(** X23: on the routes alone no doctor ever has a slot to offer.  In every
    store reachable from an empty database the listing of a registered
    doctor's available slots, with or without a date, is answered 200 with the
    empty list: add-slots, the only route that would store a slot, stores
    none. *)
Theorem reachable_lists_no_slots s doctor_id date d :
  reachable s ->
  query_get Doctor.id (doctors s) doctor_id = Some d ->
  get_available_slots doctor_id date s
  = ((JDict [("slots", JList []); ("count", JInt 0)], 200), s).
Proof.
  intros Hs Hd. rewrite (get_available_slots_rows doctor_id date s d Hd).
  unfold available_rows. rewrite (reachable_no_slots s Hs). reflexivity.
Qed.

(** X13: the order of the checks in booking, for a caller whose token
    verifies.  A body without [doctor_id] is answered 500 even when the
    caller is no patient; with [doctor_id], an unknown patient or doctor is
    answered 404 even when date and time are missing; with both known, a
    missing [appointment_date] or [appointment_time] is answered 500.  In all
    three cases the store is unchanged. *)
Theorem book_missing_key env token who data s :
  decode_token token = Some who ->
  (bk_doctor_id data = None ->
   book_appointment env (Some token) data s = (internal_error, s))
  /\ (forall did, bk_doctor_id data = Some did ->
        query_get Patient.id (patients s) who = None
        \/ query_get Doctor.id (doctors s) did = None ->
        book_appointment env (Some token) data s
        = (error "Patient or Doctor not found" 404, s))
  /\ (forall did p d, bk_doctor_id data = Some did ->
        query_get Patient.id (patients s) who = Some p ->
        query_get Doctor.id (doctors s) did = Some d ->
        bk_appointment_date data = None \/ bk_appointment_time data = None ->
        book_appointment env (Some token) data s = (internal_error, s)).
Proof.
  intros Htok. unfold book_appointment. rewrite (jwt_required_valid _ _ _ _ Htok).
  split; [|split].
  - intros ->. reflexivity.
  - intros did -> [H | H]; rewrite H;
      [|destruct (query_get Patient.id _ _)]; reflexivity.
  - intros did p d -> -> -> [H | H]; rewrite H;
      [|destruct (bk_appointment_date data)]; reflexivity.
Qed.

(** X15: registering a doctor and fetching the profile compose.  After a
    doctor registration answered 201, a GET of the doctor under the generated
    id is answered 200 with the very dictionary the registration returned. *)
Theorem register_then_get_doctor env fn ln em ph pw spec lic fee s :
  snd (fst (doctor_register env (doctor_fields fn ln em ph pw spec lic fee) s)) = 201 ->
  let s' := snd (doctor_register env (doctor_fields fn ln em ph pw spec lic fee) s) in
  exists dict,
    dict_get "doctor"
      (fst (fst (doctor_register env (doctor_fields fn ln em ph pw spec lic fee) s)))
    = Some dict
    /\ get_doctor (uuid4 env) s' = ((dict, 200), s').
Proof.
  intros H201.
  destruct (doctor_register_201 _ _ _ _ _ _ _ _ _ _ H201) as (_ & Hfresh & Heq).
  rewrite Heq. cbv zeta. simpl fst. simpl snd.
  eexists. split; [reflexivity|].
  unfold get_doctor. simpl doctors.
  match goal with |- context [(doctors s ++ [?d])%list] =>
    pose proof (query_get_app_new Doctor.id (doctors s) d Hfresh) as Hq
  end.
  cbn [Doctor.id] in Hq. rewrite Hq. reflexivity.
Qed.
End SlotsAndBookings.

(** X11 for doctor [D1] publishing a slot with every key of the body. *)
Lemma add_time_slots_never_stores_witness :
  add_time_slots (E := toy_external) (env_of "S1") (Some "jwt.D1") "D1"
    (slot_data (Some 1)) store_registered
  = (error "Internal server error" 500, store_registered).
Proof.
  refine (proj1 (proj2 (add_time_slots_never_stores (E := toy_external)
                          (env_of "S1") "jwt.D1" "D1" "D1" (slot_data (Some 1))
                          store_registered eq_refl))
            (Doctor.mk "D1" "Gregory" "House" "house@ppth.org"
               "555-0100" "sha$vicodin" "cardiology" "L-1"
               500 0 None 0 true) eq_refl).
Defined.

(** X23 for doctor [D1] after an add-slots request with a complete body. *)
Lemma reachable_lists_no_slots_witness :
  get_available_slots "D1" (Some "2024-06-01")
    (run (E := toy_external)
       [(env_of "S1", AddTimeSlots (Some "jwt.D1") "D1" (slot_data (Some 1)))]
       store_registered)
  = ((JDict [("slots", JList []); ("count", JInt 0)], 200),
     run (E := toy_external)
       [(env_of "S1", AddTimeSlots (Some "jwt.D1") "D1" (slot_data (Some 1)))]
       store_registered).
Proof.
  refine (reachable_lists_no_slots (E := toy_external)
            (run (E := toy_external)
               [(env_of "S1", AddTimeSlots (Some "jwt.D1") "D1" (slot_data (Some 1)))]
               store_registered)
            "D1" (Some "2024-06-01")
            (Doctor.mk "D1" "Gregory" "House" "house@ppth.org"
               "555-0100" "sha$vicodin" "cardiology" "L-1"
               500 0 None 0 true) _ eq_refl).
  apply reachable_run. apply reachable_run. constructor.
Defined.

(** X13 for a booking body that names no doctor. *)
Lemma book_missing_key_witness :
  book_appointment (E := toy_external) (env_of "A1") (Some "jwt.P1")
    {| bk_doctor_id := None; bk_appointment_date := Some "2024-06-01";
       bk_appointment_time := Some "10:00"; bk_consultation_notes := None |}
    store_registered
  = (internal_error, store_registered).
Proof.
  exact (proj1 (book_missing_key (E := toy_external) (env_of "A1") "jwt.P1" "P1"
                  {| bk_doctor_id := None; bk_appointment_date := Some "2024-06-01";
                     bk_appointment_time := Some "10:00";
                     bk_consultation_notes := None |}
                  store_registered eq_refl) eq_refl).
Defined.

(** X15 for the registration of a second doctor. *)
Lemma register_then_get_doctor_witness :
  snd (fst (get_doctor "D2"
              (snd (doctor_register (E := toy_external) (env_of "D2")
                      (doctor_data "wilson@ppth.org" "L-2") store_registered))))
  = 200.
Proof.
  destruct (register_then_get_doctor (E := toy_external) (env_of "D2")
              "Gregory" "House" "wilson@ppth.org" "555-0100" "vicodin" "cardiology"
              "L-2" None store_registered eq_refl)
    as (dict & _ & Hget).
  cbv zeta in Hget. exact (f_equal (fun x => snd (fst x)) Hget).
Defined.

(** ** Stability along traces *)

Section Stability.
Context {E : External}.

Lemma handle_accounts_app env r s :
  exists lp ld,
    patients (snd (handle env r s)) = (patients s ++ lp)%list
    /\ doctors (snd (handle env r s)) = (doctors s ++ ld)%list.
Proof.
  effect_cases env r s; simpl;
    first [ exists [], []; rewrite !app_nil_r; split; reflexivity
          | exists [p], []; rewrite !app_nil_r; split; reflexivity
          | exists [], [d]; rewrite !app_nil_r; split; reflexivity ].
Qed.

Lemma run_accounts_app trace s :
  exists lp ld,
    patients (run trace s) = (patients s ++ lp)%list
    /\ doctors (run trace s) = (doctors s ++ ld)%list.
Proof.
  revert s. induction trace as [|[env r] trace IH]; intros s; simpl.
  - exists [], []. rewrite !app_nil_r. split; reflexivity.
  - destruct (IH (snd (handle env r s))) as (lp & ld & Hp & Hd).
    destruct (handle_accounts_app env r s) as (lp0 & ld0 & Hp0 & Hd0).
    exists (lp0 ++ lp)%list, (ld0 ++ ld)%list.
    rewrite Hp, Hd, Hp0, Hd0, !app_assoc. split; reflexivity.
Qed.

Lemma first_filter_by_app_Some {A : Type} (f : A -> bool) tbl l r :
  first (filter_by f tbl) = Some r -> first (filter_by f (tbl ++ l)) = Some r.
Proof.
  unfold filter_by. rewrite filter_app.
  destruct (filter f tbl); [discriminate | trivial].
Qed.

(** X16: a doctor's profile never changes.  Once a doctor is in the store, a
    GET of the doctor after any further sequence of requests is answered 200
    with the same dictionary: no route updates or deletes a doctor. *)
Theorem get_doctor_stable trace doctor_id d s :
  query_get Doctor.id (doctors s) doctor_id = Some d ->
  get_doctor doctor_id (run trace s) = ((Doctor.to_dict d, 200), run trace s).
Proof.
  intros Hd. unfold get_doctor.
  destruct (run_accounts_app trace s) as (lp & ld & _ & Hdoc).
  rewrite Hdoc, (query_get_app_Some _ _ ld _ _ Hd). reflexivity.
Qed.

(** X17: credentials never stop working.  A login answered 200 is answered
    200 after any further sequence of requests, with the same patient or
    doctor dictionary: no route changes a password or an email or removes an
    account.  Nothing is said of the token, which is issued anew at each
    login.  Patients and doctors alike. *)
Theorem login_keeps_succeeding trace em pw s :
  (snd (fst (patient_login (login_data em pw) s)) = 200 ->
   snd (fst (patient_login (login_data em pw) (run trace s))) = 200
   /\ dict_get "patient" (fst (fst (patient_login (login_data em pw) (run trace s))))
      = dict_get "patient" (fst (fst (patient_login (login_data em pw) s)))
   /\ exists p, dict_get "patient" (fst (fst (patient_login (login_data em pw) s)))
                = Some (Patient.to_dict p))
  /\ (snd (fst (doctor_login (login_data em pw) s)) = 200 ->
      snd (fst (doctor_login (login_data em pw) (run trace s))) = 200
      /\ dict_get "doctor" (fst (fst (doctor_login (login_data em pw) (run trace s))))
         = dict_get "doctor" (fst (fst (doctor_login (login_data em pw) s)))
      /\ exists d, dict_get "doctor" (fst (fst (doctor_login (login_data em pw) s)))
                   = Some (Doctor.to_dict d)).
Proof.
  destruct (run_accounts_app trace s) as (lp & ld & Hp & Hd). split.
  - intros Hok. apply patient_login_ok in Hok. destruct Hok as (p & Hfirst & Hc).
    rewrite !patient_login_cases.
    assert (Hfirst' : patient_by_email (run trace s) em = Some p).
    { unfold patient_by_email. rewrite Hp. apply first_filter_by_app_Some.
      exact Hfirst. }
    rewrite Hfirst, Hfirst', Hc.
    split; [reflexivity|]. split; [reflexivity|]. exists p. reflexivity.
  - intros Hok. apply doctor_login_ok in Hok. destruct Hok as (d & Hfirst & Hc).
    rewrite !doctor_login_cases.
    assert (Hfirst' : doctor_by_email (run trace s) em = Some d).
    { unfold doctor_by_email. rewrite Hd. apply first_filter_by_app_Some.
      exact Hfirst. }
    rewrite Hfirst, Hfirst', Hc.
    split; [reflexivity|]. split; [reflexivity|]. exists d. reflexivity.
Qed.

Lemma reachable_doctor_defaults s :
  reachable s ->
  forall d, In d (doctors s) ->
    Doctor.is_available d = true /\ Doctor.rating_average d = 0%Q
    /\ Doctor.experience_years d = 0 /\ Doctor.bio d = None.
Proof.
  induction 1 as [|env r s Hs IH]; intros d0 Hin.
  - destruct Hin.
  - revert Hin. effect_cases env r s; simpl; intros Hin; try (apply IH; exact Hin).
    apply in_app_or in Hin. destruct Hin as [Hin | [<- | []]]; auto.
Qed.

Lemma filter_by_all {A : Type} (f : A -> bool) tbl :
  (forall r, In r tbl -> f r = true) -> filter_by f tbl = tbl.
Proof.
  unfold filter_by. induction tbl as [|r tbl IH]; simpl; intros H; [reflexivity|].
  rewrite (H r (or_introl eq_refl)). f_equal. apply IH.
  intros r' Hin. apply H. right. exact Hin.
Qed.

(** X18: in every reachable store the doctor listing hides nobody: without
    a specialization (or with an empty one) it lists every registered doctor,
    with one it lists every doctor of that specialization, in registration
    order; and every doctor has the defaults no route writes: available,
    rating average 0.0, experience 0, no bio. *)
Theorem get_doctors_lists_registered sp s :
  reachable s ->
  (let rows :=
     match truthy sp with
     | Some x => filter_by (fun d => Doctor.specialization d =? x) (doctors s)
     | None => doctors s
     end in
   get_doctors sp s
   = ((JDict [("doctors", JList (map Doctor.to_dict rows)); ("count", len rows)],
       200), s))
  /\ forall d, In d (doctors s) ->
       Doctor.is_available d = true /\ Doctor.rating_average d = 0%Q
       /\ Doctor.experience_years d = 0 /\ Doctor.bio d = None.
Proof.
  intros Hs. split; [|apply reachable_doctor_defaults; exact Hs].
  unfold get_doctors. cbv zeta.
  rewrite (filter_by_all Doctor.is_available)
    by (intros d Hd; apply (reachable_doctor_defaults s Hs d Hd)).
  reflexivity.
Qed.
End Stability.

(** X16 for doctor [D1] across a booking request and a cancel request. *)
Lemma get_doctor_stable_witness :
  snd (fst (get_doctor "D1"
              (run (E := toy_external)
                 [(env_of "A1", BookAppointment (Some "jwt.P1") (book_data "D1"));
                  (env_of "", CancelAppointment (Some "jwt.P1") "A1")]
                 store_registered))) = 200.
Proof.
  exact (f_equal (fun x => snd (fst x))
           (get_doctor_stable (E := toy_external)
              [(env_of "A1", BookAppointment (Some "jwt.P1") (book_data "D1"));
               (env_of "", CancelAppointment (Some "jwt.P1") "A1")]
              "D1"
              (Doctor.mk "D1" "Gregory" "House" "house@ppth.org" "555-0100"
                         "sha$vicodin" "cardiology" "L-1" 500 0 None 0 true)
              store_registered eq_refl)).
Defined.

(** X17 for the login of [P1] after a second doctor registered. *)
Lemma login_keeps_succeeding_witness :
  snd (fst (patient_login (E := toy_external) (login_data "ada@example.org" "engine")
              (run (E := toy_external)
                 [(env_of "D2", DoctorRegister (doctor_data "wilson@ppth.org" "L-2"))]
                 store_registered)))
  = 200.
Proof.
  exact (proj1 (proj1 (login_keeps_succeeding (E := toy_external)
                         [(env_of "D2",
                           DoctorRegister (doctor_data "wilson@ppth.org" "L-2"))]
                         "ada@example.org" "engine" store_registered) eq_refl)).
Defined.

(** X18 on the store where [D1] and [P1] are registered. *)
Lemma get_doctors_lists_registered_witness :
  snd (fst (get_doctors (Some "cardiology") store_registered)) = 200.
Proof.
  refine (f_equal (fun x => snd (fst x))
            (proj1 (get_doctors_lists_registered (E := toy_external)
                      (Some "cardiology") store_registered _))).
  apply reachable_run. constructor.
Defined.

(** ** Who may do what *)

Section Authorization.
Context {E : External}.


(** X22: listing the appointments of a patient id never answers 404.  For
    a caller whose token verifies the answer is 200, and it is the empty list
    exactly when no appointment has the patient id of the path and passes the
    status filter: an unknown patient id gets the empty list. *)
Theorem unknown_patient_lists_empty token who patient_id status s :
  decode_token token = Some who ->
  snd (fst (get_patient_appointments (Some token) patient_id status s)) = 200
  /\ ((forall a, In a (appointments s) -> Appointment.patient_id a = patient_id ->
         match truthy status with
         | Some st => Appointment.status a <> st
         | None => False
         end)
      <-> get_patient_appointments (Some token) patient_id status s
          = ((JDict [("appointments", JList []); ("count", JInt 0)], 200), s)).
Proof.
  intros Htok. rewrite (patient_appointments_rows _ _ _ _ _ Htok). cbv zeta.
  split; [reflexivity|].
  match goal with |- context [filter_by ?f (appointments s)] =>
    assert (Hnil : filter_by f (appointments s) = []
                   <-> forall a, In a (appointments s) ->
                         Appointment.patient_id a = patient_id ->
                         match truthy status with
                         | Some st => Appointment.status a <> st
                         | None => False
                         end)
  end.
  { rewrite filter_by_nil_iff. split.
    - intros H a Hin Hp. specialize (H a Hin).
      apply String.eqb_eq in Hp. rewrite Hp in H. simpl in H.
      destruct (truthy status); [apply String.eqb_neq; exact H | discriminate].
    - intros H a Hin.
      destruct (Appointment.patient_id a =? patient_id) eqn:Hp; [|reflexivity].
      apply String.eqb_eq in Hp. specialize (H a Hin Hp). simpl.
      destruct (truthy status); [apply String.eqb_neq; exact H | destruct H]. }
  split.
  - intros H. apply Hnil in H. rewrite H. reflexivity.
  - intros H. apply Hnil. injection H as Hmap _.
    apply map_eq_nil in Hmap. exact Hmap.
Qed.
End Authorization.


(** X22 for a patient id that nobody has. *)
Lemma unknown_patient_lists_empty_witness :
  get_patient_appointments (E := toy_external) (Some "jwt.P1") "P9" None store_cancelled
  = ((JDict [("appointments", JList []); ("count", JInt 0)], 200), store_cancelled).
Proof.
  refine (proj1 (proj2 (unknown_patient_lists_empty (E := toy_external)
                          "jwt.P1" "P1" "P9" None store_cancelled eq_refl)) _).
  intros a [<- | []]. discriminate.
Defined.
